(** * Semantic segmentation data set (Pascal VOC2012): colour table, label
      decoding, paired random crop and the filtering data set

    A shallow embedding of the code cells of
    [chapter_computer-vision/semantic-segmentation-and-dataset.ipynb]:
    [VOC_COLORMAP], [colormap2label], [voc_label_indices], [voc_rand_crop]
    and the class [VOCSegDataset].

    The MXNet calls the notebook makes ([nd.zeros], integer and array
    indexing, [image.random_crop], [image.fixed_crop], [transpose],
    broadcasting arithmetic) are embedded next to the cell that uses them.
    Python exceptions are values of [result]; the random generator is passed
    explicitly. *)

From Stdlib Require Import ZArith List Lia QArith.
From Stdlib Require Floats.
From stdpp Require Import base option list gmap numbers strings pretty.

(** ** Exceptions *)

Inductive exn : Type :=
| IndexError   (* an index outside a Python list or an NDArray *)
| MXNetError   (* a check of the MXNet back end failed *)
| ValueError.  (* random.randint on an empty range *)

Inductive result (A : Type) : Type :=
| Ok (a : A)
| Raise (e : exn).
Arguments Ok {A} a.
Arguments Raise {A} e.

#[global] Instance result_ret : MRet result := fun _ a => Ok a.
#[global] Instance result_bind : MBind result := fun _ _ k m =>
  match m with
  | Ok a => k a
  | Raise e => Raise e
  end.

Definition is_ok {A} (m : result A) : bool :=
  match m with Ok _ => true | Raise _ => false end.

(** ** One-dimensional NDArray of class indices: the lookup table

    [nd.zeros(n)] is an array of [n] cells, all 0.  The table has 256^3
    cells, so the cells are kept as a finite map from the index to the value
    last stored there; a cell that was never stored to still holds the 0 that
    [nd.zeros] put in it.  The values are the class indices 0..20, which the
    array's float32 cells hold exactly; they are integers here. *)

Record ndarray1 : Type := NDArray1 {
  nd_size  : Z;
  nd_cells : gmap Z Z
}.

Definition nd_zeros (n : Z) : ndarray1 := NDArray1 n ∅.

(** The cell at [k].  The notebook reads the table only through array
    indexing ([colormap2label[idx]], a gather with no bound check); the
    keys it reads lie inside the table, see [pack_int32_range]. *)
Definition nd_item (t : ndarray1) (k : Z) : Z := default 0%Z (nd_cells t !! k).

(** [t[k] = v] for a Python integer [k]: a negative [k] counts from the end,
    and [IndexError] outside the array. *)
Definition nd_setitem (t : ndarray1) (k v : Z) : result ndarray1 :=
  let k' := if (k <? 0)%Z then (k + nd_size t)%Z else k in
  if (k' <? 0)%Z || (nd_size t <=? k')%Z then Raise IndexError
  else Ok (NDArray1 (nd_size t) (<[k' := v]> (nd_cells t))).

(** ** The palette *)

Definition rgb : Type := (Z * Z * Z)%type.

Definition VOC_COLORMAP : list rgb :=
  [ (0, 0, 0); (128, 0, 0); (0, 128, 0); (128, 128, 0);
    (0, 0, 128); (128, 0, 128); (0, 128, 128); (128, 128, 128);
    (64, 0, 0); (192, 0, 0); (64, 128, 0); (192, 128, 0);
    (64, 0, 128); (192, 0, 128); (64, 128, 128); (192, 128, 128);
    (0, 64, 0); (128, 64, 0); (0, 192, 0); (128, 192, 0);
    (0, 64, 128) ]%Z.

(** The class names, index-aligned with [VOC_COLORMAP]. *)
Definition VOC_CLASSES : list string :=
  [ "background"; "aeroplane"; "bicycle"; "bird"; "boat";
    "bottle"; "bus"; "car"; "cat"; "chair"; "cow";
    "diningtable"; "dog"; "horse"; "motorbike"; "person";
    "potted plant"; "sheep"; "sofa"; "train"; "tv/monitor" ]%string.

(** [(colormap[0] * 256 + colormap[1]) * 256 + colormap[2]] on Python
    integers. *)
Definition pack (c : rgb) : Z :=
  let '(r, g, b) := c in ((r * 256 + g) * 256 + b)%Z.

(** [for i, colormap in enumerate(cm): t[pack colormap] = i], with the
    counter of [enumerate] starting at [i]. *)
Fixpoint colormap2label_loop (i : nat) (cm : list rgb) (t : ndarray1)
  : result ndarray1 :=
  match cm with
  | [] => Ok t
  | colormap :: cm' =>
      t' ← nd_setitem t (pack colormap) (Z.of_nat i);
      colormap2label_loop (S i) cm' t'
  end.

Definition build_colormap2label (cm : list rgb) : result ndarray1 :=
  colormap2label_loop 0 cm (nd_zeros (256 ^ 3)).

(** The module-level table [colormap2label]: what the loop leaves behind
    ([colormap2label_built] shows that the loop does finish with it). *)
Definition colormap2label : ndarray1 :=
  match build_colormap2label VOC_COLORMAP with
  | Ok t => t
  | Raise _ => nd_zeros (256 ^ 3)
  end.

(** ** Integer arithmetic of int32 arrays *)

Definition wrap32 (z : Z) : Z := ((z + 2 ^ 31) mod 2 ^ 32 - 2 ^ 31)%Z.

Definition is_uint8 (v : Z) : Prop := (0 <= v < 256)%Z.
Definition is_uint8b (v : Z) : bool := ((0 <=? v) && (v <? 256))%Z.

Definition rgb_uint8 (c : rgb) : Prop :=
  is_uint8 c.1.1 ∧ is_uint8 c.1.2 ∧ is_uint8 c.2.
Definition rgb_uint8b (c : rgb) : bool :=
  is_uint8b c.1.1 && is_uint8b c.1.2 && is_uint8b c.2.

(** ** NDArrays with two spatial axes

    An array of shape (H, W) is its shape and its cells; the cells are read
    at [y < H] and [x < W] only.  An image, of shape (H, W, 3), is such an
    array whose cells are the three channel values of a pixel: [image.imread]
    always returns three channels. *)

Record ndarray2 (A : Type) : Type := NDArray2 {
  shape0 : nat;
  shape1 : nat;
  item   : nat → nat → A
}.
Arguments NDArray2 {A} shape0 shape1 item.
Arguments shape0 {A} n.
Arguments shape1 {A} n.
Arguments item {A} n y x.

Abbreviation image A := (ndarray2 (A * A * A)).

(** An array of shape (C, H, W), the result of [transpose((2, 0, 1))]. *)
Record ndarray3 (A : Type) : Type := NDArray3 {
  dim0  : nat;
  dim1  : nat;
  dim2  : nat;
  item3 : nat → nat → nat → A
}.
Arguments NDArray3 {A} dim0 dim1 dim2 item3.
Arguments dim0 {A} n.
Arguments dim1 {A} n.
Arguments dim2 {A} n.
Arguments item3 {A} n c y x.

(** Channel [c] of a pixel, for [c] in 0, 1, 2. *)
Definition chan {A} (c : nat) (p : A * A * A) : A :=
  match c with
  | 0 => p.1.1
  | 1 => p.1.2
  | _ => p.2
  end.

(** Cell-wise operations; the two operands of [nd_zip] have one shape
    wherever the notebook combines arrays (they are channels of one image). *)
Definition nd_map {A B} (f : A → B) (a : ndarray2 A) : ndarray2 B :=
  NDArray2 (shape0 a) (shape1 a) (fun y x => f (item a y x)).

Definition nd_zip {A B C} (f : A → B → C) (a : ndarray2 A) (b : ndarray2 B)
  : ndarray2 C :=
  NDArray2 (shape0 a) (shape1 a) (fun y x => f (item a y x) (item b y x)).

(** [img[:, :, c]] *)
Definition channel {A} (c : nat) (img : image A) : ndarray2 A :=
  nd_map (chan c) img.

(** [img.transpose((2, 0, 1))] *)
Definition transpose_201 {A} (img : image A) : ndarray3 A :=
  NDArray3 3 (shape0 img) (shape1 img) (fun c y x => chan c (item img y x)).

(** An image from its rows, and the image of one colour. *)
Definition of_rows {A} (d : A) (rows : list (list A)) : ndarray2 A :=
  NDArray2 (length rows) (length (hd [] rows))
           (fun y x => nth x (nth y rows []) d).

Definition full {A} (h w : nat) (v : A) : ndarray2 A :=
  NDArray2 h w (fun _ _ => v).

(** All cells inside the shape satisfy [p]. *)
Definition nd_forallb {A} (p : A → bool) (a : ndarray2 A) : bool :=
  forallb (fun y => forallb (fun x => p (item a y x)) (seq 0 (shape1 a)))
          (seq 0 (shape0 a)).

(** ** The label decoder *)

Definition int32_add (a b : ndarray2 Z) : ndarray2 Z :=
  nd_zip (fun u v => wrap32 (u + v)) a b.

Definition int32_mul_scalar (a : ndarray2 Z) (k : Z) : ndarray2 Z :=
  nd_map (fun u => wrap32 (u * k)) a.

(** [colormap.astype('int32')] *)
Definition astype_int32 (colormap : image Z) : image Z :=
  nd_map (fun p => (wrap32 p.1.1, wrap32 p.1.2, wrap32 p.2)) colormap.

(** [colormap2label[idx]] for an array [idx] of indices. *)
Definition nd_gather (t : ndarray1) (idx : ndarray2 Z) : ndarray2 Z :=
  nd_map (nd_item t) idx.

Definition voc_label_indices (colormap : image Z) (colormap2label : ndarray1)
  : ndarray2 Z :=
  let colormap := astype_int32 colormap in
  let idx :=
    int32_add
      (int32_mul_scalar
         (int32_add (int32_mul_scalar (channel 0 colormap) 256)
                    (channel 1 colormap))
         256)
      (channel 2 colormap) in
  nd_gather colormap2label idx.

(** ** The random generator

    The generator is the sequence of raw draws still to come.
    [random.randint(a, b)] takes the next draw into [a..b], both ends
    included, and raises [ValueError] on an empty range. *)

Definition rng : Type := nat → nat.

Definition randint (a b : Z) (g : rng) : result (Z * rng) :=
  if (b <? a)%Z then Raise ValueError
  else Ok ((a + Z.of_nat (g 0%nat) mod (b - a + 1))%Z, fun n => g (S n)).

(** ** image.random_crop and image.fixed_crop *)

(** A Python number in [scale_down]: an int or a float (binary64). *)
Inductive pynum : Type :=
| PyInt (z : Z)
| PyFloat (f : PrimFloat.float).

(** [float(z)]: the binary64 number nearest to the integer [z]. *)
Definition float_of_Z (z : Z) : PrimFloat.float :=
  FloatOps.SF2Prim
    (SpecFloat.binary_normalize FloatOps.prec FloatOps.emax z 0 false).

Definition float_of (n : pynum) : PrimFloat.float :=
  match n with
  | PyInt z => float_of_Z z
  | PyFloat f => f
  end.

(** [int(x)] cuts the fraction of a float off, toward zero.  An infinity or
    a NaN, on which Python raises, is not a quotient of two image sizes. *)
Definition py_int (n : pynum) : Z :=
  match n with
  | PyInt z => z
  | PyFloat f =>
      match FloatOps.Prim2SF f with
      | SpecFloat.S754_finite s m e =>
          let mag := if (0 <=? e)%Z then Z.shiftl (Z.pos m) e
                     else Z.shiftr (Z.pos m) (- e) in
          if s then (- mag)%Z else mag
      | _ => 0%Z
      end
  end.

(** [z < x] for an int [z]: Python compares an int with a float by their
    exact values. *)
Definition py_lt (z : Z) (n : pynum) : bool :=
  match n with
  | PyInt w => (z <? w)%Z
  | PyFloat f =>
      match FloatOps.Prim2SF f with
      | SpecFloat.S754_finite s m e =>
          let v := if s then Z.neg m else Z.pos m in
          if (0 <=? e)%Z then (z <? Z.shiftl v e)%Z
          else (Z.shiftl z (- e) <? v)%Z
      | SpecFloat.S754_zero _ => (z <? 0)%Z
      | SpecFloat.S754_infinity s => negb s
      | SpecFloat.S754_nan => false
      end
  end.

(** [scale_down(src_size, size)]: the crop size, scaled down to fit the
    source while keeping the aspect ratio.  Sizes are (width, height).
    [w] and [h] are ints until a branch divides: [float(w * sh) / h] and
    [float(h * sw) / w] are binary64 quotients. *)
Definition scale_down (src_size size : nat * nat) : nat * nat :=
  let '(w, h) := (Z.of_nat size.1, Z.of_nat size.2) in
  let '(sw, sh) := (Z.of_nat src_size.1, Z.of_nat src_size.2) in
  let '(w, h) :=
    if (sh <? h)%Z
    then (PyFloat (PrimFloat.div (float_of_Z (w * sh)) (float_of_Z h)), sh)
    else (PyInt w, h) in
  let '(w, h) :=
    if py_lt sw w
    then (PyInt sw,
          PyFloat (PrimFloat.div (float_of_Z (h * sw)) (float_of w)))
    else (w, PyInt h) in
  (Z.to_nat (py_int w), Z.to_nat (py_int h)).

(** [nd.slice(src, begin=(y0, x0, 0), end=(y1, x1, src.shape[2]))]: rows
    [y0..y1-1] and columns [x0..x1-1], all channels.  The back end refuses an
    empty range and an end beyond the source. *)
Definition nd_slice {A} (src : ndarray2 A) (y0 x0 y1 x1 : nat)
  : result (ndarray2 A) :=
  if (y0 <? y1) && (x0 <? x1) && (y1 <=? shape0 src) && (x1 <=? shape1 src)
  then Ok (NDArray2 (y1 - y0) (x1 - x0) (fun y x => item src (y0 + y) (x0 + x)))
  else Raise MXNetError.

Definition rect : Type := (nat * nat * nat * nat)%type.

Section Crop.
(** [image.imresize(src, w, h, interp)] interpolates a picture of the new
    size; it is kept abstract. *)
Variable imresize : ∀ T : Type, image T → nat → nat → image T.

(** [fixed_crop(src, x0, y0, w, h, size=None)] *)
Definition fixed_crop {T} (src : image T) (x0 y0 w h : nat)
    (size : option (nat * nat)) : result (image T) :=
  out ← nd_slice src y0 x0 (y0 + h) (x0 + w);
  match size with
  | Some s =>
      if decide ((w, h) = s) then Ok out
      else Ok (imresize T out s.1 s.2)
  | None => Ok out
  end.

(** [random_crop(src, size)], [size] being (width, height); returns the
    crop and the rectangle (x0, y0, w, h) it was taken from. *)
Definition random_crop {T} (src : image T) (size : nat * nat) (g : rng)
  : result (image T * rect * rng) :=
  let h := shape0 src in
  let w := shape1 src in
  let '(new_w, new_h) := scale_down (w, h) size in
  '(x0, g) ← randint 0 (Z.of_nat w - Z.of_nat new_w) g;
  '(y0, g) ← randint 0 (Z.of_nat h - Z.of_nat new_h) g;
  out ← fixed_crop src (Z.to_nat x0) (Z.to_nat y0) new_w new_h (Some size);
  Ok (out, (Z.to_nat x0, Z.to_nat y0, new_w, new_h), g).

Definition voc_rand_crop {A B} (feature : image A) (label : image B)
    (height width : nat) (g : rng) : result (image A * image B * rng) :=
  '(feature, rect, g) ← random_crop feature (width, height) g;
  let '(x0, y0, w, h) := rect in
  label ← fixed_crop label x0 y0 w h None;
  Ok (feature, label, g).
End Crop.

(** ** float32 arithmetic

    The operations of float32 that [normalize_image] uses: the conversion of
    an integer ([astype('float32')] of a pixel value, the scalar 255), the
    float32 nearest to a decimal literal, division and subtraction. *)

Class Float32 (F : Type) : Type := {
  f32_of_Z   : Z → F;
  f32_of_dec : Q → F;
  f32_div    : F → F → F;
  f32_sub    : F → F → F
}.

(** Exact rational arithmetic, to run the definitions on examples. *)
#[global] Instance Q_arith : Float32 Q :=
  {| f32_of_Z := inject_Z; f32_of_dec := fun q => q;
     f32_div := Qdiv; f32_sub := Qminus |}.

Definition map3 {A B} (f : A → B) (p : A * A * A) : B * B * B :=
  (f p.1.1, f p.1.2, f p.2).

Definition zip3 {A B C} (f : A → B → C) (p : A * A * A) (q : B * B * B)
  : C * C * C :=
  (f p.1.1 q.1.1, f p.1.2 q.1.2, f p.2 q.2).

(** Python list indexing [l[idx]]: a negative [idx] counts from the end. *)
Definition py_getitem {T} (l : list T) (idx : Z) : result T :=
  let i := if (idx <? 0)%Z then (idx + Z.of_nat (length l))%Z else idx in
  if (i <? 0)%Z then Raise IndexError
  else match l !! Z.to_nat i with
       | Some x => Ok x
       | None => Raise IndexError
       end.

(** The condition of the data set's filter:
    [img.shape[0] >= crop_size[0] and img.shape[1] >= crop_size[1]]. *)
Definition fits {A} (crop_size : nat * nat) (img : ndarray2 A) : bool :=
  (crop_size.1 <=? shape0 img) && (crop_size.2 <=? shape1 img).

Definition same_shape {A B} (a : ndarray2 A) (b : ndarray2 B) : Prop :=
  shape0 a = shape0 b ∧ shape1 a = shape1 b.

(** ** class VOCSegDataset *)

Module VOCSegDataset.
Section WithFloat.
Context {F : Type} {arith : Float32 F}.
Variable imresize : ∀ T : Type, image T → nat → nat → image T.

Record t : Type := Build {
  rgb_mean       : F * F * F;
  rgb_std        : F * F * F;
  crop_size      : nat * nat;
  features       : list (image F);
  labels         : list (image Z);
  colormap2label : ndarray1
}.

(** [img.astype('float32')], [a / k] for a scalar, and [a - v], [a / v]
    for a vector [v] of three numbers, which broadcasts along the channel
    axis. *)
Definition astype_float32 (img : image Z) : image F :=
  nd_map (map3 f32_of_Z) img.
Definition nd_div_scalar (a : image F) (k : Z) : image F :=
  nd_map (map3 (fun u => f32_div u (f32_of_Z k))) a.
Definition nd_sub_vec (a : image F) (v : F * F * F) : image F :=
  nd_map (fun p => zip3 f32_sub p v) a.
Definition nd_div_vec (a : image F) (v : F * F * F) : image F :=
  nd_map (fun p => zip3 f32_div p v) a.

(** The two attributes that [__init__] sets first. *)
Definition init_rgb_mean : F * F * F :=
  (f32_of_dec (485 # 1000), f32_of_dec (456 # 1000), f32_of_dec (406 # 1000)).
Definition init_rgb_std : F * F * F :=
  (f32_of_dec (229 # 1000), f32_of_dec (224 # 1000), f32_of_dec (225 # 1000)).

(** [normalize_image(self, img)]; it reads [self.rgb_mean] and
    [self.rgb_std]. *)
Definition normalize_image (self_rgb_mean self_rgb_std : F * F * F)
    (img : image Z) : image F :=
  nd_div_vec (nd_sub_vec (nd_div_scalar (astype_float32 img) 255)
                         self_rgb_mean)
             self_rgb_std.

(** [filter(self, imgs)]; it reads [self.crop_size]. *)
Definition filter {A} (self_crop_size : nat * nat) (imgs : list (image A))
  : list (image A) :=
  List.filter (fits self_crop_size) imgs.

(** [__init__(self, is_train, crop_size, voc_dir, colormap2label)].
    [is_train] and [voc_dir] only choose the files that [read_voc_images]
    reads; its result, the lists of features and of labels, is the
    argument here.  The second component is the line printed. *)
Definition __init__ (read_voc_images : list (image Z) * list (image Z))
    (crop_size : nat * nat) (colormap2label : ndarray1) : t * string :=
  let rgb_mean := init_rgb_mean in
  let rgb_std := init_rgb_std in
  let '(features, labels) := read_voc_images in
  let self_features :=
    normalize_image rgb_mean rgb_std <$> filter crop_size features in
  let self_labels := filter crop_size labels in
  (Build rgb_mean rgb_std crop_size self_features self_labels colormap2label,
   "read " +:+ pretty (length self_features) +:+ " examples").

(** [__getitem__(self, idx)] *)
Definition __getitem__ (self : t) (idx : Z) (g : rng)
  : result (ndarray3 F * ndarray2 Z * rng) :=
  feature ← py_getitem (features self) idx;
  label ← py_getitem (labels self) idx;
  '(feature, label, g) ←
    voc_rand_crop imresize feature label
                  (crop_size self).1 (crop_size self).2 g;
  Ok (transpose_201 feature,
      voc_label_indices label (colormap2label self), g).

(** [__len__(self)] *)
Definition __len__ (self : t) : nat := length (features self).
End WithFloat.
End VOCSegDataset.

(** The offset that [randint(0, n - m)] takes from the next raw draw. *)
Definition offset (n m : nat) (draw : nat) : nat :=
  Z.to_nat (0 + Z.of_nat draw mod (Z.of_nat n - Z.of_nat m - 0 + 1)).

(** A label image as [image.imread] returns it: every channel value is
    8-bit. *)
Definition uint8_image (img : image Z) : Prop :=
  ∀ y x, y < shape0 img → x < shape1 img → rgb_uint8 (item img y x).

(** The normalisation as the specification words it, for one channel value:
    (value / 255 - mean) / std. *)
Definition spec_normalize {F} {arith : Float32 F} (mean std : Q) (value : Z)
  : F :=
  f32_div (f32_sub (f32_div (f32_of_Z value) (f32_of_Z 255)) (f32_of_dec mean))
          (f32_of_dec std).

(** ** Inputs to run the definitions on *)

(** A 2 x 3 label image in palette colours: background, aeroplane, bicycle
    in the first row and tv/monitor, train, background in the second. *)
Definition palette_label : image Z :=
  of_rows (0, 0, 0)%Z
    [ [ (0, 0, 0); (128, 0, 0); (0, 128, 0) ];
      [ (0, 64, 128); (128, 192, 0); (0, 0, 0) ] ]%Z.

(** A label with a white border pixel (255, 255, 255), as the data set's
    label images have around objects. *)
Definition border_label : image Z :=
  of_rows (0, 0, 0)%Z [ [ (128, 0, 0); (255, 255, 255) ] ]%Z.

(** An [imresize] that returns its argument. *)
Definition imresize_keep : ∀ T : Type, image T → nat → nat → image T :=
  fun _ img _ _ => img.

(** Raw draws 5, 8, 11, ... *)
Definition draws : rng := fun n => 5 + 3 * n.

(** A 3 x 4 feature and a 3 x 4 label whose pixels carry their own
    position, the label's with the third channel set to 1. *)
Definition tagged_feature : image Z :=
  NDArray2 3 4 (fun y x => (Z.of_nat y, Z.of_nat x, 0%Z)).
Definition tagged_label : image Z :=
  NDArray2 3 4 (fun y x => (Z.of_nat y, Z.of_nat x, 1%Z)).

(** A label that is taller and wider than [tagged_feature]. *)
Definition larger_label : image Z :=
  NDArray2 5 7 (fun y x => (Z.of_nat y, Z.of_nat x, 1%Z)).

(** Five pairs, two of them lower than the crop height 3, and the data set
    read from them with the crop size (3, 4). *)
Definition five_features : list (image Z) :=
  [ full 4 6 (10, 20, 30)%Z; full 2 6 (11, 21, 31)%Z; full 5 5 (12, 22, 32)%Z;
    full 1 9 (13, 23, 33)%Z; full 4 4 (14, 24, 34)%Z ].
Definition five_labels : list (image Z) :=
  [ full 4 6 (0, 0, 0)%Z; full 2 6 (128, 0, 0)%Z; full 5 5 (0, 128, 0)%Z;
    full 1 9 (128, 128, 0)%Z; full 4 4 (0, 0, 128)%Z ].
Definition five_dataset : VOCSegDataset.t (F := Q) :=
  (VOCSegDataset.__init__ (arith := Q_arith) (five_features, five_labels)
     (3, 4) colormap2label).1.

(** ** The cells around the claims' functions *)

(** The index, counted from [i], of the last colour of [cm] whose key is
    [k]: the assignment of the loop that is not overwritten. *)
Fixpoint last_index (k : Z) (i : nat) (cm : list rgb) : option nat :=
  match cm with
  | [] => None
  | c :: cm' =>
      match last_index k (S i) cm' with
      | Some j => Some j
      | None => if decide (pack c = k) then Some i else None
      end
  end.

(** The rows [y0..y0+h-1] and columns [x0..x0+w-1] of [img], as [nd.slice]
    returns them. *)
Definition crop_at {A} (img : ndarray2 A) (y0 x0 h w : nat) : ndarray2 A :=
  NDArray2 (y0 + h - y0) (x0 + w - x0)
           (fun y x => item img (y0 + y) (x0 + x)).

(** The decimal constants of [__init__], by channel. *)
Definition mean_dec (c : nat) : Q := chan c (485 # 1000, 456 # 1000, 406 # 1000).
Definition std_dec (c : nat) : Q := chan c (229 # 1000, 224 # 1000, 225 # 1000).

(** *** read_voc_images *)

(** The characters at which [str.split()] splits an ASCII text: tab, line
    feed, vertical tab, form feed, carriage return, the separators 28..31
    and the space.  (Python also splits at the white space beyond ASCII,
    such as U+0085 and U+00A0; an ASCII text holds none.) *)
Definition is_space (a : Ascii.ascii) : bool :=
  let n := Ascii.nat_of_ascii a in
  ((9 <=? n) && (n <=? 13)) || ((28 <=? n) && (n <=? 32)).

(** [s.split()] for an ASCII text [s]: the maximal runs of characters that
    are not spaces; [word] is the run being read. *)
Fixpoint py_split_from (word : string) (s : string) : list string :=
  match s with
  | EmptyString => if decide (word = EmptyString) then [] else [word]
  | String a s' =>
      if is_space a
      then (if decide (word = EmptyString) then [] else [word])
           ++ py_split_from EmptyString s'
      else py_split_from (word +:+ String a EmptyString) s'
  end.

Definition py_split (s : string) : list string := py_split_from EmptyString s.

(** [l[i] = x] on a Python list, for [i >= 0]. *)
Definition py_setitem {T} (l : list T) (i : nat) (x : T) : result (list T) :=
  if i <? length l then Ok (<[i := x]> l) else Raise IndexError.

Section ReadImages.
(** [open(path, 'r').read()] and [image.imread(path)]: the file system is
    outside the notebook. *)
Variable read_text : string → result string.
Variable imread : string → result (image Z).

Definition jpg_path (root fname : string) : string :=
  root +:+ "/JPEGImages/" +:+ fname +:+ ".jpg".
Definition png_path (root fname : string) : string :=
  root +:+ "/SegmentationClass/" +:+ fname +:+ ".png".

(** [for i, fname in enumerate(images): features[i] = ...; labels[i] = ...],
    with the counter of [enumerate] starting at [i]; a slot of the two lists
    is [None] until the loop assigns it. *)
Fixpoint read_voc_images_loop (root : string) (i : nat) (images : list string)
    (features labels : list (option (image Z)))
  : result (list (option (image Z)) * list (option (image Z))) :=
  match images with
  | [] => Ok (features, labels)
  | fname :: images' =>
      feature ← imread (jpg_path root fname);
      features ← py_setitem features i (Some feature);
      label ← imread (png_path root fname);
      labels ← py_setitem labels i (Some label);
      read_voc_images_loop root (S i) images' features labels
  end.

Definition read_voc_images (root : string) (is_train : bool)
  : result (list (option (image Z)) * list (option (image Z))) :=
  let txt_fname :=
    root +:+ "/ImageSets/Segmentation/"
         +:+ (if is_train then "train.txt" else "val.txt") in
  text ← read_text txt_fname;
  let images := py_split text in
  let features := replicate (length images) None in
  let labels := replicate (length images) None in
  read_voc_images_loop root 0 images features labels.
End ReadImages.

(** The text of an index file that lists the identifiers one per line. *)
Definition newline : Ascii.ascii := Ascii.ascii_of_nat 10.
Definition index_file (ids : list string) : string :=
  foldr (fun id rest => id +:+ String newline rest) EmptyString ids.

(** An identifier: not empty, of ASCII characters, none of them a space. *)
Definition no_space (id : string) : Prop :=
  id ≠ EmptyString
  ∧ Forall (fun a => Ascii.nat_of_ascii a < 128 ∧ is_space a = false)
           (String.list_ascii_of_string id).

(** *** The cell that shows n random crops *)

(** [imgs[::2]] and [imgs[1::2]] *)
Fixpoint every_second {T} (l : list T) : list T :=
  match l with
  | x :: _ :: l' => x :: every_second l'
  | [x] => [x]
  | [] => []
  end.
Definition py_evens {T} (l : list T) : list T := every_second l.
Definition py_odds {T} (l : list T) : list T := every_second (drop 1 l).

Section CropDemo.
Variable imresize : ∀ T : Type, image T → nat → nat → image T.

(** [for _ in range(n): imgs += voc_rand_crop(feature, label, 200, 300)] *)
Fixpoint rand_crop_loop (n : nat) (feature label : image Z) (g : rng)
    (imgs : list (image Z)) : result (list (image Z) * rng) :=
  match n with
  | 0 => Ok (imgs, g)
  | S n' =>
      '(f, l, g) ← voc_rand_crop imresize feature label 200 300 g;
      rand_crop_loop n' feature label g (imgs ++ [f; l])
  end.

(** The list handed to [show_images]: [imgs[::2] + imgs[1::2]]. *)
Definition rand_crop_shown (n : nat) (feature label : image Z) (g : rng)
  : result (list (image Z) * rng) :=
  '(imgs, g) ← rand_crop_loop n feature label g [];
  Ok (py_evens imgs ++ py_odds imgs, g).
End CropDemo.

(** *** More inputs *)

(** A palette that names one colour twice. *)
Definition repeated_palette : list rgb := [ (1, 2, 3); (4, 5, 6); (1, 2, 3) ]%Z.

(** Two pairs whose second label is lower than its feature. *)
Definition uneven_features : list (image Z) :=
  [ full 4 6 (10, 20, 30)%Z; full 4 6 (11, 21, 31)%Z ].
Definition uneven_labels : list (image Z) :=
  [ full 4 6 (0, 0, 0)%Z; full 2 6 (128, 0, 0)%Z ].

(** A file system with one index file of two identifiers and their four
    pictures; every other text file is empty. *)
Definition two_ids : list string := [ "2007_000032"; "2007_000039" ]%string.
Definition disk_text (path : string) : result string :=
  if decide (path = "voc/ImageSets/Segmentation/train.txt")
  then Ok (index_file two_ids) else Ok EmptyString.
Definition disk_image (path : string) : result (image Z) :=
  if decide (path = "voc/JPEGImages/2007_000032.jpg")
  then Ok (full 4 6 (10, 20, 30)%Z)
  else if decide (path = "voc/SegmentationClass/2007_000032.png")
  then Ok (full 4 6 (0, 0, 0)%Z)
  else if decide (path = "voc/JPEGImages/2007_000039.jpg")
  then Ok (full 5 5 (11, 21, 31)%Z)
  else if decide (path = "voc/SegmentationClass/2007_000039.png")
  then Ok (full 5 5 (128, 0, 0)%Z)
  else Raise MXNetError.

(** A 9 x 1 picture, and a 2 x 3 feature, smaller than the crop size 4 x 6,
    with a picture of the size the crop is resized to. *)
Definition narrow_feature : image Z := full 9 1 (7, 8, 9)%Z.

Definition imresize_full : ∀ T : Type, image T → nat → nat → image T :=
  fun _ img w h => NDArray2 h w (fun _ _ => item img 0 0).

(** A 200 x 300 picture pair for the cell that shows crops. *)
Definition big_feature : image Z :=
  NDArray2 210 320 (fun y x => (Z.of_nat y, Z.of_nat x, 0%Z)).
Definition big_label : image Z := full 210 320 (128, 0, 0)%Z.

(** The k-th crop that the cell shows, for a source of height [H] and width
    [W]: the draws 2k and 2k+1 give its column and its row. *)
Definition shown_crop (img : image Z) (H W : nat) (g : rng) (k : nat)
  : image Z :=
  crop_at img (offset H 200 (g (2 * k + 1))) (offset W 300 (g (2 * k)))
          200 300.

(** An index file that names a third identifier, which has no pictures on
    the disk. *)
Definition three_ids : list string := two_ids ++ [ "2007_000042" ]%string.
Definition disk_text_three (path : string) : result string :=
  if decide (path = "voc/ImageSets/Segmentation/train.txt")
  then Ok (index_file three_ids) else Ok EmptyString.

(** * Properties *)

(** ** The lookup table *)

Lemma nd_setitem_in_range (t : ndarray1) (k v : Z) :
  (0 <= k < nd_size t)%Z →
  nd_setitem t k v = Ok (NDArray1 (nd_size t) (<[k := v]> (nd_cells t))).
Proof.
  intros Hk. unfold nd_setitem.
  destruct (Z.ltb_spec k 0) as [?|_]; [lia|].
  destruct (Z.ltb_spec k 0) as [?|_]; [lia|].
  destruct (Z.leb_spec (nd_size t) k) as [?|_]; [lia|done].
Qed.

Lemma nd_item_insert_eq (n : Z) (m : gmap Z Z) (k v : Z) :
  nd_item (NDArray1 n (<[k := v]> m)) k = v.
Proof. unfold nd_item; simpl. by rewrite lookup_insert_eq. Qed.

Lemma nd_item_insert_ne (n : Z) (m : gmap Z Z) (k k' v : Z) :
  k ≠ k' → nd_item (NDArray1 n (<[k := v]> m)) k' = nd_item (NDArray1 n m) k'.
Proof. intros Hne. unfold nd_item; simpl. by rewrite lookup_insert_ne. Qed.

Lemma nd_item_zeros (n k : Z) : nd_item (nd_zeros n) k = 0%Z.
Proof. unfold nd_item, nd_zeros; simpl. by rewrite lookup_empty. Qed.

(** The loop over a palette whose keys are distinct and inside the table:
    it ends without an exception, every palette key holds the index of its
    colour, and the other cells are as they were. *)
Lemma colormap2label_loop_spec (cm : list rgb) :
  ∀ (i : nat) (t : ndarray1),
    NoDup (pack <$> cm) →
    Forall (fun c => (0 <= pack c < nd_size t)%Z) cm →
    ∃ t', colormap2label_loop i cm t = Ok t'
          ∧ nd_size t' = nd_size t
          ∧ (∀ j c, cm !! j = Some c → nd_item t' (pack c) = Z.of_nat (i + j))
          ∧ (∀ k, k ∉ pack <$> cm → nd_item t' k = nd_item t k).
Proof.
  induction cm as [|c cm IH]; intros i t Hnd Hin.
  - exists t. split; [done|]. split; [done|]. split; [|done].
    intros j c Hj. by rewrite lookup_nil in Hj.
  - rewrite fmap_cons in Hnd. apply NoDup_cons in Hnd as [Hc Hnd].
    apply Forall_cons in Hin as [Hck Hin].
    simpl. rewrite nd_setitem_in_range by done. simpl.
    destruct (IH (S i) (NDArray1 (nd_size t) (<[pack c := Z.of_nat i]> (nd_cells t))))
      as (t' & Hrun & Hsz & Hhit & Hmiss); [done|done|].
    exists t'. split; [done|]. split; [done|]. split.
    + intros [|j] c' Hj; simpl in Hj.
      * injection Hj as <-. rewrite Hmiss by done.
        rewrite nd_item_insert_eq. f_equal. lia.
      * rewrite (Hhit j c' Hj). f_equal. lia.
    + intros k Hk. rewrite ?fmap_cons in Hk.
      apply not_elem_of_cons in Hk as [Hne Hk].
      rewrite Hmiss by done. destruct t as [n m]; simpl.
      by apply nd_item_insert_ne.
Qed.

Lemma VOC_COLORMAP_keys_NoDup : NoDup (pack <$> VOC_COLORMAP).
Proof. apply (bool_decide_unpack (NoDup (pack <$> VOC_COLORMAP))). vm_compute. exact I. Qed.

Lemma VOC_COLORMAP_uint8 : Forall rgb_uint8 VOC_COLORMAP.
Proof. unfold VOC_COLORMAP. repeat constructor; simpl; lia. Qed.

Lemma pack_range (c : rgb) : rgb_uint8 c → (0 <= pack c < 256 ^ 3)%Z.
Proof.
  destruct c as [[r g] b]. unfold rgb_uint8, is_uint8, pack; simpl.
  change (256 ^ 3)%Z with 16777216%Z. lia.
Qed.

Lemma pack_inj (c c' : rgb) :
  rgb_uint8 c → rgb_uint8 c' → pack c = pack c' → c = c'.
Proof.
  destruct c as [[r g] b], c' as [[r' g'] b'].
  unfold rgb_uint8, is_uint8, pack; simpl. intros ? ? Heq.
  assert (r = r') by lia. assert (g = g') by lia. assert (b = b') by lia.
  congruence.
Qed.

Lemma colormap2label_table :
  build_colormap2label VOC_COLORMAP = Ok colormap2label
  ∧ nd_size colormap2label = (256 ^ 3)%Z
  ∧ (∀ j c, VOC_COLORMAP !! j = Some c →
            nd_item colormap2label (pack c) = Z.of_nat j)
  ∧ (∀ k, k ∉ pack <$> VOC_COLORMAP → nd_item colormap2label k = 0%Z).
Proof.
  destruct (colormap2label_loop_spec VOC_COLORMAP 0 (nd_zeros (256 ^ 3)))
    as (t' & Hrun & Hsz & Hhit & Hmiss).
  - exact VOC_COLORMAP_keys_NoDup.
  - eapply Forall_impl; [exact VOC_COLORMAP_uint8|].
    intros c Hc. by apply pack_range.
  - assert (Heq : colormap2label = t').
    { unfold colormap2label, build_colormap2label. by rewrite Hrun. }
    rewrite Heq. split; [exact Hrun|]. split; [exact Hsz|]. split.
    + exact Hhit.
    + intros k Hk. rewrite Hmiss by done. apply nd_item_zeros.
Qed.

Lemma colormap2label_built :
  build_colormap2label VOC_COLORMAP = Ok colormap2label.
Proof. exact (proj1 colormap2label_table). Qed.

(** C2: after the loop that fills [colormap2label], the cell at the packed
    key (r*256+g)*256+b of the palette colour (r, g, b) of index i, for every
    i in 0..20, holds i. *)
Theorem colormap2label_palette_index (i : nat) (r g b : Z) :
  VOC_COLORMAP !! i = Some (r, g, b) →
  nd_item colormap2label ((r * 256 + g) * 256 + b) = Z.of_nat i.
Proof.
  intros Hi. destruct colormap2label_table as (_ & _ & Hhit & _).
  exact (Hhit i (r, g, b) Hi).
Qed.

Lemma bicycle_colour_index :
  VOC_COLORMAP !! 2%nat = Some (0, 128, 0)%Z
  ∧ nd_item colormap2label ((0 * 256 + 128) * 256 + 0) = 2%Z.
Proof.
  split; [reflexivity|].
  apply (colormap2label_palette_index 2 0 128 0). reflexivity.
Defined.

(** ** The label decoder *)

Lemma wrap32_id (z : Z) : (- 2 ^ 31 <= z < 2 ^ 31)%Z → wrap32 z = z.
Proof.
  intros Hz. unfold wrap32.
  rewrite Z.mod_small by (change (2 ^ 32)%Z with (2 ^ 31 + 2 ^ 31)%Z; lia).
  lia.
Qed.

(** On 8-bit channels the int32 arithmetic of the decoder does not wrap, and
    the key it computes is a cell of the table. *)
Lemma pack_int32 (c : rgb) :
  rgb_uint8 c →
  wrap32 (wrap32 (wrap32 (wrap32 (wrap32 c.1.1 * 256) + wrap32 c.1.2) * 256)
          + wrap32 c.2)
  = pack c.
Proof.
  destruct c as [[r g] b]. unfold rgb_uint8, is_uint8, pack; simpl.
  intros (Hr & Hg & Hb).
  assert (H31 : (2 ^ 31)%Z = 2147483648%Z) by reflexivity.
  rewrite (wrap32_id r), (wrap32_id g), (wrap32_id b) by lia.
  rewrite (wrap32_id (r * 256)) by lia.
  rewrite (wrap32_id (r * 256 + g)) by lia.
  rewrite (wrap32_id ((r * 256 + g) * 256)) by lia.
  apply wrap32_id. lia.
Qed.

Lemma pack_int32_range (c : rgb) :
  rgb_uint8 c → (0 <= pack c < nd_size colormap2label)%Z.
Proof.
  intros Hc. destruct colormap2label_table as (_ & -> & _).
  by apply pack_range.
Qed.

Lemma voc_label_indices_shape (colormap : image Z) (t : ndarray1) :
  shape0 (voc_label_indices colormap t) = shape0 colormap
  ∧ shape1 (voc_label_indices colormap t) = shape1 colormap.
Proof. split; reflexivity. Qed.

Lemma voc_label_indices_item (colormap : image Z) (t : ndarray1) (y x : nat) :
  rgb_uint8 (item colormap y x) →
  item (voc_label_indices colormap t) y x = nd_item t (pack (item colormap y x)).
Proof.
  intros Hc. unfold voc_label_indices, nd_gather, int32_add, int32_mul_scalar,
    channel, astype_int32, nd_zip, nd_map, chan; simpl.
  f_equal. by apply pack_int32.
Qed.

Lemma rgb_uint8b_spec (c : rgb) : rgb_uint8b c = true ↔ rgb_uint8 c.
Proof.
  unfold rgb_uint8b, rgb_uint8, is_uint8b, is_uint8.
  rewrite !andb_true_iff, !Z.leb_le, !Z.ltb_lt. tauto.
Qed.

Lemma nd_forallb_spec {A} (p : A → bool) (a : ndarray2 A) :
  nd_forallb p a = true ↔
  ∀ y x, y < shape0 a → x < shape1 a → p (item a y x) = true.
Proof.
  unfold nd_forallb. rewrite forallb_forall. split.
  - intros H y x Hy Hx.
    assert (Hrow := H y ltac:(apply in_seq; lia)).
    rewrite forallb_forall in Hrow. apply Hrow, in_seq. lia.
  - intros H y Hy. apply in_seq in Hy. apply forallb_forall.
    intros x Hx. apply in_seq in Hx. apply H; lia.
Qed.

Lemma uint8_image_check (img : image Z) :
  nd_forallb rgb_uint8b img = true → uint8_image img.
Proof.
  intros H y x Hy Hx. apply rgb_uint8b_spec.
  by apply (proj1 (nd_forallb_spec _ _) H).
Qed.

(** C3: [voc_label_indices], given an H x W x 3 label image of 8-bit channel
    values and a table, returns an H x W map whose value at every pixel is
    the table's cell at the packed key (r*256+g)*256+b of the pixel's colour;
    with the table [colormap2label], a pixel that has the palette colour of
    index i decodes to i. *)
Theorem voc_label_indices_decodes (label : image Z) (t : ndarray1) :
  uint8_image label →
  shape0 (voc_label_indices label t) = shape0 label
  ∧ shape1 (voc_label_indices label t) = shape1 label
  ∧ (∀ y x r g b, y < shape0 label → x < shape1 label →
       item label y x = (r, g, b) →
       item (voc_label_indices label t) y x
       = nd_item t ((r * 256 + g) * 256 + b))
  ∧ (∀ y x i, y < shape0 label → x < shape1 label →
       VOC_COLORMAP !! i = Some (item label y x) →
       item (voc_label_indices label colormap2label) y x = Z.of_nat i).
Proof.
  intros H8. split; [reflexivity|]. split; [reflexivity|]. split.
  - intros y x r g b Hy Hx Hc.
    rewrite voc_label_indices_item by (by apply H8). by rewrite Hc.
  - intros y x i Hy Hx Hi.
    rewrite voc_label_indices_item by (by apply H8).
    destruct colormap2label_table as (_ & _ & Hhit & _). by apply Hhit.
Qed.

Lemma palette_label_decoded :
  uint8_image palette_label
  ∧ shape0 (voc_label_indices palette_label colormap2label) = 2
  ∧ shape1 (voc_label_indices palette_label colormap2label) = 3
  ∧ item (voc_label_indices palette_label colormap2label) 0 1 = 1%Z
  ∧ item (voc_label_indices palette_label colormap2label) 1 0 = 20%Z
  ∧ item (voc_label_indices palette_label colormap2label) 1 1 = 19%Z.
Proof.
  assert (H8 : uint8_image palette_label)
    by (apply uint8_image_check; reflexivity).
  destruct (voc_label_indices_decodes palette_label colormap2label H8)
    as (H0 & H1 & _ & Hpal).
  split; [exact H8|]. split; [exact H0|]. split; [exact H1|].
  split; [|split].
  - apply (Hpal 0 1 1); [simpl; lia|simpl; lia|reflexivity].
  - apply (Hpal 1 0 20); [simpl; lia|simpl; lia|reflexivity].
  - apply (Hpal 1 1 19); [simpl; lia|simpl; lia|reflexivity].
Defined.

(** C8: a label pixel whose colour is none of the 21 palette colours is
    decoded without an exception ([voc_label_indices] has none to raise) to
    0, the value [nd.zeros] left in its cell, which is also what the
    background colour, palette index 0, decodes to. *)
Theorem voc_label_indices_unrecognized (label : image Z) (y x : nat) :
  y < shape0 label → x < shape1 label →
  rgb_uint8 (item label y x) →
  item label y x ∉ VOC_COLORMAP →
  item (voc_label_indices label colormap2label) y x = 0%Z
  ∧ VOC_COLORMAP !! 0 = Some (0, 0, 0)%Z
  ∧ VOC_CLASSES !! 0 = Some "background"%string
  ∧ nd_item colormap2label (pack (0, 0, 0)%Z) = 0%Z.
Proof.
  intros Hy Hx H8 Hnot.
  destruct colormap2label_table as (_ & _ & Hhit & Hmiss).
  split; [|split; [reflexivity|split; [reflexivity|]]].
  - rewrite voc_label_indices_item by done. apply Hmiss.
    intros Hin. apply list_elem_of_fmap in Hin as (c & Heq & Hc).
    apply Hnot. assert (rgb_uint8 c) as Hc8.
    { pose proof VOC_COLORMAP_uint8 as Hall.
      rewrite Forall_forall in Hall. by apply Hall. }
    by rewrite (pack_inj _ _ H8 Hc8 Heq).
  - exact (Hhit 0 (0, 0, 0)%Z eq_refl).
Qed.

Lemma border_pixel_decoded :
  item border_label 0 1 = (255, 255, 255)%Z
  ∧ ((255, 255, 255)%Z ∉ VOC_COLORMAP)
  ∧ item (voc_label_indices border_label colormap2label) 0 1 = 0%Z.
Proof.
  split; [reflexivity|].
  split; [apply (bool_decide_unpack ((255, 255, 255)%Z ∉ VOC_COLORMAP));
          vm_compute; exact I|].
  apply (voc_label_indices_unrecognized border_label 0 1).
  - simpl; lia.
  - simpl; lia.
  - unfold rgb_uint8, is_uint8; simpl; lia.
  - apply (bool_decide_unpack ((255, 255, 255)%Z ∉ VOC_COLORMAP)).
    vm_compute. exact I.
Defined.

(** ** The paired random crop *)

Example scale_down_wide : scale_down (640, 480) (720, 120) = (640, 106).
Proof. vm_compute. reflexivity. Qed.

Example scale_down_both : scale_down (300, 200) (480, 320) = (300, 200).
Proof. vm_compute. reflexivity. Qed.

(** The quotient 9 / (18 / 14) is 6.999999999999999 in binary64. *)
Example scale_down_rounded : scale_down (1, 9) (2, 14) = (1, 6).
Proof. vm_compute. reflexivity. Qed.

(** A crop size that fits the source is not scaled. *)
Lemma scale_down_fit (sw sh w h : nat) :
  w ≤ sw → h ≤ sh → scale_down (sw, sh) (w, h) = (w, h).
Proof.
  intros Hw Hh. unfold scale_down; cbn [fst snd].
  destruct (Z.ltb_spec (Z.of_nat sh) (Z.of_nat h)) as [?|_]; [lia|].
  cbn [py_lt].
  destruct (Z.ltb_spec (Z.of_nat sw) (Z.of_nat w)) as [?|_]; [lia|].
  cbn [py_int]. by rewrite !Nat2Z.id.
Qed.

Lemma offset_le (n m draw : nat) : m ≤ n → offset n m draw + m ≤ n.
Proof.
  intros Hle. unfold offset.
  pose proof (Z.mod_pos_bound (Z.of_nat draw) (Z.of_nat n - Z.of_nat m - 0 + 1)
                ltac:(lia)).
  lia.
Qed.

Lemma offset_mod (n m draw : nat) :
  m ≤ n → offset n m draw = draw mod (n - m + 1).
Proof.
  intros Hle. unfold offset. rewrite Z.add_0_l.
  replace (Z.of_nat n - Z.of_nat m - 0 + 1)%Z with (Z.of_nat (n - m + 1))
    by lia.
  rewrite <- Nat2Z.inj_mod. apply Nat2Z.id.
Qed.

Lemma randint_offset (n m : nat) (g : rng) :
  m ≤ n →
  randint 0 (Z.of_nat n - Z.of_nat m) g
  = Ok ((0 + Z.of_nat (g 0%nat) mod (Z.of_nat n - Z.of_nat m - 0 + 1))%Z,
        fun k => g (S k)).
Proof.
  intros Hle. unfold randint.
  destruct (Z.ltb_spec (Z.of_nat n - Z.of_nat m) 0) as [?|_]; [lia|done].
Qed.

Lemma nd_slice_inside {A} (src : ndarray2 A) (y0 x0 h w : nat) :
  0 < h → 0 < w → y0 + h ≤ shape0 src → x0 + w ≤ shape1 src →
  nd_slice src y0 x0 (y0 + h) (x0 + w)
  = Ok (NDArray2 (y0 + h - y0) (x0 + w - x0)
                 (fun y x => item src (y0 + y) (x0 + x))).
Proof.
  intros Hh Hw Hy Hx. unfold nd_slice.
  destruct (Nat.ltb_spec y0 (y0 + h)); [|lia].
  destruct (Nat.ltb_spec x0 (x0 + w)); [|lia].
  destruct (Nat.leb_spec (y0 + h) (shape0 src)); [|lia].
  destruct (Nat.leb_spec (x0 + w) (shape1 src)); [|lia].
  done.
Qed.

Section CropProperties.
Variable imresize : ∀ T : Type, image T → nat → nat → image T.

(** The crop of a feature that is at least as large as the crop size, paired
    with a label that is at least as large as the feature: one offset
    [(y0, x0)], drawn from the feature's dimensions, cuts both. *)
Lemma voc_rand_crop_inside {A B} (feature : image A) (label : image B)
    (height width : nat) (g : rng) :
  0 < height ≤ shape0 feature → 0 < width ≤ shape1 feature →
  shape0 feature ≤ shape0 label → shape1 feature ≤ shape1 label →
  ∃ y0 x0 f l,
    voc_rand_crop imresize feature label height width g
    = Ok (f, l, fun k => g (S (S k)))
    ∧ x0 = offset (shape1 feature) width (g 0)
    ∧ y0 = offset (shape0 feature) height (g 1)
    ∧ (shape0 f = height ∧ shape1 f = width)
    ∧ (shape0 l = height ∧ shape1 l = width)
    ∧ (∀ i j, item f i j = item feature (y0 + i) (x0 + j))
    ∧ (∀ i j, item l i j = item label (y0 + i) (x0 + j)).
Proof.
  intros [Hh0 Hh] [Hw0 Hw] HH HW.
  pose proof (offset_le (shape1 feature) width (g 0) Hw) as Hx.
  pose proof (offset_le (shape0 feature) height (g 1) Hh) as Hy.
  unfold voc_rand_crop, random_crop.
  rewrite scale_down_fit by done.
  rewrite randint_offset by done. simpl.
  rewrite randint_offset by done. simpl.
  fold (offset (shape1 feature) width (g 0)).
  fold (offset (shape0 feature) height (g 1)).
  set (x0 := offset (shape1 feature) width (g 0)) in *.
  set (y0 := offset (shape0 feature) height (g 1)) in *.
  unfold fixed_crop.
  rewrite (nd_slice_inside feature) by lia. simpl.
  rewrite decide_True by done. simpl.
  rewrite (nd_slice_inside label) by lia. simpl.
  eexists y0, x0, _, _. split; [reflexivity|]. simpl.
  repeat split; try done; lia.
Qed.

(** C1: [voc_rand_crop], given a feature and a label of the same height and
    width and a crop size (cropH, cropW) with cropH <= H and cropW <= W,
    draws one top-left offset at random, the column x0 from the next draw of
    the generator taken into 0..W-cropW and the row y0 from the draw after
    it taken into 0..H-cropH, and cuts both images at that offset with that
    size: both crops have the shape cropH x cropW and hold the same region
    of their sources.  Every offset that keeps the crop inside the pair is
    the choice of some draws. *)
Theorem voc_rand_crop_aligned {A B} (feature : image A) (label : image B)
    (cropH cropW : nat) (g : rng) :
  shape0 feature = shape0 label → shape1 feature = shape1 label →
  0 < cropH ≤ shape0 feature → 0 < cropW ≤ shape1 feature →
  (∃ f l,
     voc_rand_crop imresize feature label cropH cropW g
     = Ok (f, l, fun k => g (S (S k)))
     ∧ g 1 mod (shape0 feature - cropH + 1) + cropH ≤ shape0 feature
     ∧ g 0 mod (shape1 feature - cropW + 1) + cropW ≤ shape1 feature
     ∧ shape0 f = cropH ∧ shape1 f = cropW
     ∧ shape0 l = cropH ∧ shape1 l = cropW
     ∧ (∀ i j, i < cropH → j < cropW →
          item f i j
          = item feature (g 1 mod (shape0 feature - cropH + 1) + i)
                         (g 0 mod (shape1 feature - cropW + 1) + j)
          ∧ item l i j
            = item label (g 1 mod (shape0 feature - cropH + 1) + i)
                         (g 0 mod (shape1 feature - cropW + 1) + j)))
  ∧ (∀ y0 x0, y0 + cropH ≤ shape0 feature → x0 + cropW ≤ shape1 feature →
       ∃ g0 f l g',
         voc_rand_crop imresize feature label cropH cropW g0 = Ok (f, l, g')
         ∧ (∀ i j, i < cropH → j < cropW →
              item f i j = item feature (y0 + i) (x0 + j)
              ∧ item l i j = item label (y0 + i) (x0 + j))).
Proof.
  intros HH HW Hh Hw. split.
  - destruct (voc_rand_crop_inside feature label cropH cropW g)
      as (y0 & x0 & f & l & Hrun & Hx0 & Hy0 & [Hf0 Hf1] & [Hl0 Hl1] & Hf & Hl);
      [done|done|lia|lia|].
    rewrite offset_mod in Hx0, Hy0 by lia. subst x0 y0.
    exists f, l. split; [exact Hrun|].
    split; [rewrite <- (offset_mod _ _ (g 1)) by lia; apply offset_le; lia|].
    split; [rewrite <- (offset_mod _ _ (g 0)) by lia; apply offset_le; lia|].
    do 4 (split; [done|]). intros i j _ _. by split.
  - intros y0 x0 Hy0 Hx0.
    set (g0 := fun n : nat => match n with 0 => x0 | _ => y0 end).
    destruct (voc_rand_crop_inside feature label cropH cropW g0)
      as (y & x & f & l & Hrun & Hx & Hy & _ & _ & Hf & Hl);
      [done|done|lia|lia|].
    rewrite offset_mod in Hx, Hy by lia. simpl in Hx, Hy.
    rewrite Nat.mod_small in Hx, Hy by lia. subst x y.
    exists g0, f, l, (fun k => g0 (S (S k))). split; [exact Hrun|].
    intros i j _ _. by split.
Qed.
End CropProperties.

Lemma tagged_pair_crop :
  same_shape tagged_feature tagged_label
  ∧ ∃ f l,
      voc_rand_crop imresize_keep tagged_feature tagged_label 2 3 draws
      = Ok (f, l, fun k => draws (S (S k)))
      ∧ shape0 f = 2 ∧ shape1 f = 3 ∧ shape0 l = 2 ∧ shape1 l = 3
      ∧ (∀ i j, i < 2 → j < 3 →
           item f i j = item tagged_feature (0 + i) (1 + j)
           ∧ item l i j = item tagged_label (0 + i) (1 + j)).
Proof.
  split; [by split|].
  destruct (voc_rand_crop_aligned imresize_keep tagged_feature tagged_label
              2 3 draws)
    as [(f & l & Hrun & _ & _ & Hf0 & Hf1 & Hl0 & Hl1 & Hcells) _];
    [reflexivity|reflexivity|simpl; lia|simpl; lia|].
  exists f, l. do 5 (split; [assumption|]). exact Hcells.
Defined.

(** The draws 5 and 8 give x0 = 5 mod 2 = 1 and y0 = 8 mod 2 = 0: the crop
    of the tagged pair starts at row 0, column 1 in both images. *)
Example tagged_pair_crop_cells :
  match voc_rand_crop imresize_keep tagged_feature tagged_label 2 3 draws with
  | Ok (f, l, _) =>
      item f 0 0 = (0, 1, 0)%Z ∧ item l 0 0 = (0, 1, 1)%Z
      ∧ item f 1 2 = (1, 3, 0)%Z ∧ item l 1 2 = (1, 3, 1)%Z
  | Raise _ => False
  end.
Proof. vm_compute. repeat split. Qed.

(** [voc_rand_crop] accepts a pair of different dimensions: the 3 x 4
    feature with the 5 x 7 label is cropped without an exception. *)
Lemma voc_rand_crop_mismatch_not_refused :
  ¬ (∀ (feature label : image Z) (height width : nat) (g : rng),
       shape0 feature ≠ shape0 label ∨ shape1 feature ≠ shape1 label →
       ∃ e, voc_rand_crop imresize_keep feature label height width g
            = Raise e).
Proof.
  intros H.
  destruct (H tagged_feature larger_label 2 3 draws) as [e He].
  - left. simpl. lia.
  - vm_compute in He. discriminate He.
Qed.

(** C9, as the code has it: [voc_rand_crop] does not compare the dimensions
    of the feature and the label.  Given a crop size that is positive and
    fits the feature, it draws the rectangle from the feature's dimensions
    alone, and with a label at least as tall and as wide as the feature, of
    the same dimensions or not, it returns both crops without an exception,
    each of the crop size, the feature and the label cut at that same
    rectangle. *)
Theorem voc_rand_crop_unchecked
    (imresize : ∀ T : Type, image T → nat → nat → image T)
    {A B} (feature : image A) (label : image B)
    (height width : nat) (g : rng) :
  0 < height ≤ shape0 feature → 0 < width ≤ shape1 feature →
  shape0 feature ≤ shape0 label → shape1 feature ≤ shape1 label →
  ∃ f l,
    voc_rand_crop imresize feature label height width g
    = Ok (f, l, fun k => g (S (S k)))
    ∧ shape0 f = height ∧ shape1 f = width
    ∧ shape0 l = height ∧ shape1 l = width
    ∧ (∀ i j, i < height → j < width →
         item f i j
         = item feature (g 1 mod (shape0 feature - height + 1) + i)
                        (g 0 mod (shape1 feature - width + 1) + j)
         ∧ item l i j
           = item label (g 1 mod (shape0 feature - height + 1) + i)
                        (g 0 mod (shape1 feature - width + 1) + j)).
Proof.
  intros Hh Hw HH HW.
  destruct (voc_rand_crop_inside imresize feature label height width g)
    as (y0 & x0 & f & l & Hrun & Hx0 & Hy0 & [Hf0 Hf1] & [Hl0 Hl1] & Hf & Hl);
    [done..|].
  rewrite offset_mod in Hx0, Hy0 by lia. subst x0 y0.
  exists f, l. split; [exact Hrun|].
  do 4 (split; [done|]). intros i j _ _. by split.
Qed.

Lemma larger_label_crop :
  shape0 tagged_feature ≠ shape0 larger_label
  ∧ ∃ f l,
      voc_rand_crop imresize_keep tagged_feature larger_label 2 3 draws
      = Ok (f, l, fun k => draws (S (S k)))
      ∧ shape0 f = 2 ∧ shape1 f = 3
      ∧ shape0 l = 2 ∧ shape1 l = 3
      ∧ (∀ i j, i < 2 → j < 3 →
           item f i j = item tagged_feature (0 + i) (1 + j)
           ∧ item l i j = item larger_label (0 + i) (1 + j)).
Proof.
  split; [simpl; lia|].
  apply (voc_rand_crop_unchecked imresize_keep tagged_feature larger_label 2 3
           draws); simpl; lia.
Defined.

(** ** The data set: filtering *)

Section FilterPairs.
Context {A B : Type} (pa : A → bool) (pb : B → bool) (R : A → B → Prop).
Hypothesis pa_pb : ∀ a b, R a b → pa a = pb b.

(** Filtering two lists separately, with predicates that agree on the
    pairs, is filtering the list of pairs. *)
Lemma filter_zip (l : list A) (k : list B) :
  Forall2 R l k →
  zip (List.filter pa l) (List.filter pb k)
  = List.filter (fun p => pa p.1) (zip l k).
Proof.
  induction 1 as [|a b l k HR _ IH]; [done|].
  simpl. rewrite <- (pa_pb a b HR).
  destruct (pa a); simpl; by rewrite IH.
Qed.

Lemma filter_Forall2 (l : list A) (k : list B) :
  Forall2 R l k → Forall2 R (List.filter pa l) (List.filter pb k).
Proof.
  induction 1 as [|a b l k HR _ IH]; [constructor|].
  simpl. rewrite <- (pa_pb a b HR).
  destruct (pa a); [by constructor|done].
Qed.
End FilterPairs.

Lemma filter_fst_zip {A B} (pa : A → bool) (l : list A) :
  ∀ k : list B, length l = length k →
  length (List.filter pa l) = length (List.filter (fun p => pa p.1) (zip l k)).
Proof.
  induction l as [|a l IH]; intros [|b k] Hlen; simpl in *; try done.
  injection Hlen as Hlen. destruct (pa a); simpl; by rewrite (IH k).
Qed.

Lemma fits_same_shape {A B} (crop_size : nat * nat)
    (a : ndarray2 A) (b : ndarray2 B) :
  same_shape a b → fits crop_size a = fits crop_size b.
Proof. intros [H0 H1]. unfold fits. by rewrite H0, H1. Qed.

Lemma fits_spec {A} (crop_size : nat * nat) (a : ndarray2 A) :
  fits crop_size a = true ↔ crop_size.1 ≤ shape0 a ∧ crop_size.2 ≤ shape1 a.
Proof. unfold fits. by rewrite andb_true_iff, !Nat.leb_le. Qed.

Lemma filter_lookup_fits {A} (crop_size : nat * nat) (imgs : list (image A))
    (i : nat) (img : image A) :
  VOCSegDataset.filter crop_size imgs !! i = Some img →
  crop_size.1 ≤ shape0 img ∧ crop_size.2 ≤ shape1 img.
Proof.
  intros Hi. apply fits_spec.
  apply list_elem_of_lookup_2, list_elem_of_In in Hi.
  unfold VOCSegDataset.filter in Hi. by apply filter_In in Hi as [_ ?].
Qed.

(** C4: the length of the data set built from a list of pairs and a crop
    size (cropH, cropW) is the number of pairs whose image has
    height >= cropH and width >= cropW; the constructor returns a data set
    for every input, the other pairs being left out. *)
Theorem len_counts_fitting_pairs {F} {arith : Float32 F}
    (features labels : list (image Z)) (cropH cropW : nat) (table : ndarray1) :
  length features = length labels →
  VOCSegDataset.__len__
    (VOCSegDataset.__init__ (features, labels) (cropH, cropW) table).1
  = length (List.filter
              (fun p => (cropH <=? shape0 p.1) && (cropW <=? shape1 p.1))
              (zip features labels)).
Proof.
  intros Hlen. unfold VOCSegDataset.__len__, VOCSegDataset.__init__; simpl.
  rewrite length_fmap. unfold VOCSegDataset.filter.
  by rewrite (filter_fst_zip (fits (cropH, cropW)) features labels Hlen).
Qed.

Lemma five_pairs_len :
  length five_features = length five_labels
  ∧ length five_features = 5
  ∧ VOCSegDataset.__len__ five_dataset = 3.
Proof.
  split; [reflexivity|]. split; [reflexivity|].
  unfold five_dataset.
  rewrite (len_counts_fitting_pairs (arith := Q_arith)
             five_features five_labels 3 4 colormap2label);
    reflexivity.
Defined.

(** C10: [__init__] filters the features and the labels separately, with the
    same condition.  When every feature has the height and width of its
    label, the two stored lists have one length and are aligned: the stored
    pairs are the fitting input pairs, in order, with the feature
    normalised; so the feature and the label stored at one index come from
    one input pair. *)
Theorem init_keeps_pairs {F} {arith : Float32 F}
    (features labels : list (image Z)) (crop_size : nat * nat)
    (table : ndarray1) :
  Forall2 same_shape features labels →
  let self := (VOCSegDataset.__init__ (features, labels) crop_size table).1 in
  VOCSegDataset.features self
  = VOCSegDataset.normalize_image VOCSegDataset.init_rgb_mean
      VOCSegDataset.init_rgb_std <$> VOCSegDataset.filter crop_size features
  ∧ VOCSegDataset.labels self = VOCSegDataset.filter crop_size labels
  ∧ length (VOCSegDataset.features self) = length (VOCSegDataset.labels self)
  ∧ zip (VOCSegDataset.features self) (VOCSegDataset.labels self)
    = (fun p => (VOCSegDataset.normalize_image VOCSegDataset.init_rgb_mean
                   VOCSegDataset.init_rgb_std p.1, p.2))
      <$> List.filter (fun p => fits crop_size p.1) (zip features labels)
  ∧ (∀ idx feature label,
       VOCSegDataset.features self !! idx = Some feature →
       VOCSegDataset.labels self !! idx = Some label →
       ∃ j raw, features !! j = Some raw ∧ labels !! j = Some label
                ∧ feature = VOCSegDataset.normalize_image
                              VOCSegDataset.init_rgb_mean
                              VOCSegDataset.init_rgb_std raw).
Proof.
  intros Hpairs self.
  assert (Hzip : zip (VOCSegDataset.features self) (VOCSegDataset.labels self)
    = (fun p => (VOCSegDataset.normalize_image VOCSegDataset.init_rgb_mean
                   VOCSegDataset.init_rgb_std p.1, p.2))
      <$> List.filter (fun p => fits crop_size p.1) (zip features labels)).
  { subst self. unfold VOCSegDataset.__init__, VOCSegDataset.filter; simpl.
    rewrite <- (filter_zip (fits crop_size) (fits crop_size) same_shape
                  (fits_same_shape crop_size) features labels Hpairs).
    generalize (List.filter (fits crop_size) features).
    generalize (List.filter (fits crop_size) labels).
    intros k l. revert k. induction l as [|a l IH]; intros [|b k]; simpl;
      try done. by rewrite IH. }
  split; [reflexivity|]. split; [reflexivity|]. split; [|split; [exact Hzip|]].
  - subst self. unfold VOCSegDataset.__init__, VOCSegDataset.filter; simpl.
    rewrite length_fmap.
    eapply Forall2_length, filter_Forall2; [|exact Hpairs].
    apply fits_same_shape.
  - intros idx feature label Hf Hl.
    assert (Hp : zip (VOCSegDataset.features self) (VOCSegDataset.labels self)
                 !! idx = Some (feature, label)).
    { apply lookup_zip_with_Some. by exists feature, label. }
    rewrite Hzip in Hp.
    apply list_lookup_fmap_Some in Hp as ([raw l'] & Heq & Hin).
    simpl in Heq. injection Heq as -> ->.
    apply list_elem_of_lookup_2, list_elem_of_In, filter_In in Hin as [Hin _].
    apply list_elem_of_In, list_elem_of_lookup in Hin as [j Hj].
    apply lookup_zip_with_Some in Hj as (a & b & Heq & Ha & Hb).
    injection Heq as -> ->. by exists j, a.
Qed.

Lemma five_pairs_kept :
  Forall2 same_shape five_features five_labels
  ∧ length (VOCSegDataset.features five_dataset)
    = length (VOCSegDataset.labels five_dataset)
  ∧ VOCSegDataset.labels five_dataset
    = [ full 4 6 (0, 0, 0)%Z; full 5 5 (0, 128, 0)%Z; full 4 4 (0, 0, 128)%Z ].
Proof.
  assert (Hpairs : Forall2 same_shape five_features five_labels)
    by (repeat constructor).
  destruct (init_keeps_pairs (arith := Q_arith) five_features five_labels
              (3, 4) colormap2label Hpairs) as (_ & Hl & Hlen & _).
  split; [exact Hpairs|]. split; [exact Hlen|].
  unfold five_dataset. rewrite Hl. reflexivity.
Defined.

(** ** The data set: indexed access *)

Lemma py_getitem_nonneg {T} (l : list T) (idx : Z) (x : T) :
  (0 <= idx)%Z → l !! Z.to_nat idx = Some x → py_getitem l idx = Ok x.
Proof.
  intros Hidx Hx. unfold py_getitem.
  destruct (Z.ltb_spec idx 0) as [?|_]; [lia|].
  destruct (Z.ltb_spec idx 0) as [?|_]; [lia|]. by rewrite Hx.
Qed.

Lemma py_getitem_outside {T} (l : list T) (idx : Z) :
  (Z.of_nat (length l) <= idx ∨ idx < - Z.of_nat (length l))%Z →
  py_getitem l idx = Raise IndexError.
Proof.
  intros Hidx. unfold py_getitem.
  destruct (Z.ltb_spec idx 0) as [Hneg|Hpos].
  - destruct (Z.ltb_spec (idx + Z.of_nat (length l)) 0) as [_|?]; [done|lia].
  - destruct (Z.ltb_spec idx 0) as [?|_]; [lia|].
    rewrite (lookup_ge_None_2 l (Z.to_nat idx)) by lia. done.
Qed.

Lemma py_getitem_from_end {T} (l : list T) (idx : Z) :
  (- Z.of_nat (length l) <= idx < 0)%Z →
  py_getitem l idx = py_getitem l (idx + Z.of_nat (length l)).
Proof.
  intros Hidx. unfold py_getitem.
  destruct (Z.ltb_spec idx 0) as [_|?]; [|lia].
  destruct (Z.ltb_spec (idx + Z.of_nat (length l)) 0) as [?|_]; [lia|].
  destruct (Z.ltb_spec (idx + Z.of_nat (length l)) 0) as [?|_]; [lia|]. done.
Qed.

Section Access.
Context {F : Type} {arith : Float32 F}.
Variable imresize : ∀ T : Type, image T → nat → nat → image T.

(** C5: for every index in [0, length) of a data set built from pairs of
    equal height and width, every call of [__getitem__], whatever the draws
    of the random generator, returns a feature of shape (3, cropH, cropW)
    and a label map of shape (cropH, cropW). *)
Theorem getitem_shape (features labels : list (image Z)) (cropH cropW : nat)
    (table : ndarray1) (idx : Z) (g : rng) :
  Forall2 same_shape features labels →
  0 < cropH → 0 < cropW →
  (0 <= idx < Z.of_nat
     (VOCSegDataset.__len__
        (VOCSegDataset.__init__ (features, labels) (cropH, cropW) table).1))%Z →
  ∃ feature label g',
    VOCSegDataset.__getitem__ imresize
      (VOCSegDataset.__init__ (features, labels) (cropH, cropW) table).1 idx g
    = Ok (feature, label, g')
    ∧ (dim0 feature = 3 ∧ dim1 feature = cropH ∧ dim2 feature = cropW)
    ∧ (shape0 label = cropH ∧ shape1 label = cropW).
Proof.
  intros Hpairs HcH HcW Hidx.
  unfold VOCSegDataset.__len__, VOCSegDataset.__init__ in Hidx; simpl in Hidx.
  rewrite length_fmap in Hidx.
  destruct (lookup_lt_is_Some_2
              (VOCSegDataset.filter (cropH, cropW) features) (Z.to_nat idx))
    as [raw Hraw]; [lia|].
  pose proof (filter_Forall2 (fits (cropH, cropW)) (fits (cropH, cropW))
                same_shape (fits_same_shape (cropH, cropW))
                features labels Hpairs) as Hkept.
  destruct (Forall2_lookup_l _ _ _ _ _ Hkept Hraw) as (lab & Hlab & [Hs0 Hs1]).
  destruct (filter_lookup_fits _ _ _ _ Hraw) as [Hf0 Hf1]; simpl in Hf0, Hf1.
  set (nf := VOCSegDataset.normalize_image VOCSegDataset.init_rgb_mean
               VOCSegDataset.init_rgb_std raw).
  destruct (voc_rand_crop_inside imresize nf lab cropH cropW g)
    as (y0 & x0 & f & l & Hrun & _ & _ & [Hfh Hfw] & [Hlh Hlw] & _);
    [simpl; lia..|].
  unfold VOCSegDataset.__getitem__, VOCSegDataset.__init__; simpl.
  rewrite (py_getitem_nonneg _ idx nf) by
    (lia || by rewrite list_lookup_fmap, Hraw). simpl.
  rewrite (py_getitem_nonneg _ idx lab) by (lia || done). simpl.
  rewrite Hrun. simpl.
  eexists _, _, _. split; [reflexivity|]. simpl. done.
Qed.

(** C7, as the code has it: [__getitem__] raises [IndexError], which it does
    not catch, for every idx >= length and every idx < -length; an idx in
    [-length, 0) is an index from the end, as in every Python list, and
    addresses the example at length + idx. *)
Theorem getitem_index (self : VOCSegDataset.t (F := F)) (idx : Z) (g : rng) :
  ((Z.of_nat (VOCSegDataset.__len__ self) <= idx
    ∨ idx < - Z.of_nat (VOCSegDataset.__len__ self))%Z →
   VOCSegDataset.__getitem__ imresize self idx g = Raise IndexError)
  ∧ ((- Z.of_nat (VOCSegDataset.__len__ self) <= idx < 0)%Z →
     length (VOCSegDataset.labels self)
     = length (VOCSegDataset.features self) →
     VOCSegDataset.__getitem__ imresize self idx g
     = VOCSegDataset.__getitem__ imresize self
         (idx + Z.of_nat (VOCSegDataset.__len__ self)) g).
Proof.
  unfold VOCSegDataset.__len__. split.
  - intros Hidx. unfold VOCSegDataset.__getitem__.
    rewrite (py_getitem_outside (VOCSegDataset.features self) idx Hidx).
    reflexivity.
  - intros Hidx Hlen. unfold VOCSegDataset.__getitem__.
    rewrite (py_getitem_from_end (VOCSegDataset.features self)) by done.
    rewrite (py_getitem_from_end (VOCSegDataset.labels self)) by lia.
    by rewrite Hlen.
Qed.
End Access.

Lemma five_pairs_access_shape :
  Forall2 same_shape five_features five_labels
  ∧ ∃ feature label g',
      VOCSegDataset.__getitem__ imresize_keep five_dataset 2 draws
      = Ok (feature, label, g')
      ∧ (dim0 feature = 3 ∧ dim1 feature = 3 ∧ dim2 feature = 4)
      ∧ (shape0 label = 3 ∧ shape1 label = 4).
Proof.
  assert (Hpairs : Forall2 same_shape five_features five_labels)
    by (repeat constructor).
  split; [exact Hpairs|].
  apply (getitem_shape (arith := Q_arith) imresize_keep five_features
           five_labels 3 4 colormap2label 2 draws Hpairs); [lia|lia|].
  split; [lia|reflexivity].
Defined.

(** [__getitem__] accepts an index outside [0, length): the data set of
    three examples returns its last example at idx = -1. *)
Lemma getitem_negative_index_not_refused :
  ¬ (∀ (self : VOCSegDataset.t (F := Q)) (idx : Z) (g : rng),
       ¬ (0 <= idx < Z.of_nat (VOCSegDataset.__len__ self))%Z →
       ∃ e, VOCSegDataset.__getitem__ imresize_keep self idx g = Raise e).
Proof.
  intros H. destruct (H five_dataset (-1)%Z draws) as [e He]; [lia|].
  assert (Hok : is_ok (VOCSegDataset.__getitem__ imresize_keep five_dataset
                         (-1) draws) = true) by reflexivity.
  rewrite He in Hok. discriminate Hok.
Qed.

Lemma five_pairs_index_error :
  VOCSegDataset.__len__ five_dataset = 3
  ∧ VOCSegDataset.__getitem__ imresize_keep five_dataset 3 draws
    = Raise IndexError
  ∧ VOCSegDataset.__getitem__ imresize_keep five_dataset (-4) draws
    = Raise IndexError
  ∧ VOCSegDataset.__getitem__ imresize_keep five_dataset (-1) draws
    = VOCSegDataset.__getitem__ imresize_keep five_dataset 2 draws.
Proof.
  split; [reflexivity|]. split; [|split].
  - apply (proj1 (getitem_index imresize_keep five_dataset 3 draws)).
    left. by vm_compute.
  - apply (proj1 (getitem_index imresize_keep five_dataset (-4) draws)).
    right. by vm_compute.
  - apply (proj2 (getitem_index imresize_keep five_dataset (-1) draws)).
    + split; by vm_compute.
    + reflexivity.
Defined.

(** ** Normalisation *)

(** C6: [normalize_image], with the mean and standard deviation that
    [__init__] stores, returns an image of the shape of its argument whose
    channel c at every pixel is (value / 255 - mean_c) / std_c, the means
    being 0.485, 0.456, 0.406 and the standard deviations 0.229, 0.224,
    0.225, in the arithmetic of the array. *)
Theorem normalize_image_formula {F} {arith : Float32 F}
    (features labels : list (image Z)) (crop_size : nat * nat)
    (table : ndarray1) (img : image Z) (y x : nat) :
  let self := (VOCSegDataset.__init__ (features, labels) crop_size table).1 in
  let out := VOCSegDataset.normalize_image (VOCSegDataset.rgb_mean self)
               (VOCSegDataset.rgb_std self) img in
  shape0 out = shape0 img ∧ shape1 out = shape1 img
  ∧ chan 0 (item out y x)
    = spec_normalize (485 # 1000) (229 # 1000) (chan 0 (item img y x))
  ∧ chan 1 (item out y x)
    = spec_normalize (456 # 1000) (224 # 1000) (chan 1 (item img y x))
  ∧ chan 2 (item out y x)
    = spec_normalize (406 # 1000) (225 # 1000) (chan 2 (item img y x)).
Proof.
  intros self out. subst self out.
  unfold VOCSegDataset.__init__; simpl.
  repeat split.
Qed.

(** A uniform grey image of value 128, in exact arithmetic: channel c of
    every pixel is (128/255 - mean_c) / std_c. *)
Example normalize_image_grey (y x : nat) :
  let out := VOCSegDataset.normalize_image (arith := Q_arith)
               VOCSegDataset.init_rgb_mean VOCSegDataset.init_rgb_std
               (full 2 2 (128, 128, 128)%Z) in
  (chan 0 (item out y x) == (128 / 255 - 485 / 1000) / (229 / 1000))%Q
  ∧ (chan 1 (item out y x) == (128 / 255 - 456 / 1000) / (224 / 1000))%Q
  ∧ (chan 2 (item out y x) == (128 / 255 - 406 / 1000) / (225 / 1000))%Q
  ∧ (chan 0 (item out y x) == 865 # 11679)%Q.
Proof. repeat split. Qed.

(** * Further properties of the notebook's cells *)

(** ** The loop that fills the table, for any palette *)

Lemma colormap2label_loop_last (cm : list rgb) :
  ∀ (i : nat) (t : ndarray1),
    Forall (fun c => (0 <= pack c < nd_size t)%Z) cm →
    ∃ t', colormap2label_loop i cm t = Ok t'
          ∧ nd_size t' = nd_size t
          ∧ ∀ k, nd_item t' k
                 = from_option Z.of_nat (nd_item t k) (last_index k i cm).
Proof.
  induction cm as [|c cm IH]; intros i t Hin.
  - exists t. by repeat split.
  - apply Forall_cons in Hin as [Hck Hin].
    simpl. rewrite nd_setitem_in_range by done. simpl.
    destruct (IH (S i) (NDArray1 (nd_size t) (<[pack c := Z.of_nat i]> (nd_cells t))))
      as (t' & Hrun & Hsz & Hcell); [done|].
    exists t'. split; [done|]. split; [done|].
    intros k. rewrite Hcell.
    destruct (last_index k (S i) cm) as [j|]; [done|]. simpl.
    destruct t as [n m]; simpl.
    destruct (decide (pack c = k)) as [<-|Hne]; simpl.
    + apply nd_item_insert_eq.
    + by apply nd_item_insert_ne.
Qed.

Lemma last_index_None (k : Z) (cm : list rgb) :
  ∀ i, last_index k i cm = None ↔ k ∉ pack <$> cm.
Proof.
  induction cm as [|c cm IH]; intros i; simpl.
  - split; [intros _; apply not_elem_of_nil|done].
  - rewrite not_elem_of_cons, <- (IH (S i)).
    destruct (last_index k (S i) cm) as [j|].
    + split; [done|]. by intros [_ ?].
    + destruct (decide (pack c = k)) as [Hk|Hk].
      * split; [done|]. intros [Hne _]. by destruct Hne.
      * split; [|done]. intros _. split; [|done]. by intros ->.
Qed.

Lemma last_index_Some (k : Z) (cm : list rgb) :
  ∀ i j, last_index k i cm = Some j →
         ∃ n c, j = i + n ∧ cm !! n = Some c ∧ pack c = k
                ∧ ∀ n' c', n < n' → cm !! n' = Some c' → pack c' ≠ k.
Proof.
  induction cm as [|c cm IH]; intros i j; simpl; [done|].
  destruct (last_index k (S i) cm) as [j'|] eqn:Hlast.
  - intros [= ->]. destruct (IH (S i) j Hlast) as (n & c' & -> & Hn & Hk & Hlater).
    exists (S n), c'. split; [lia|]. split; [done|]. split; [done|].
    intros [|n'] c'' Hlt Hn'; [lia|]. apply (Hlater n' c''); [lia|done].
  - destruct (decide (pack c = k)) as [Hk|]; [|done].
    intros [= <-]. exists 0, c. split; [lia|]. split; [done|]. split; [done|].
    intros [|n'] c' Hlt Hn'; [lia|]. simpl in Hn'.
    apply last_index_None in Hlast. intros Hk'. apply Hlast.
    apply list_elem_of_fmap. exists c'. split; [done|].
    by eapply list_elem_of_lookup_2.
Qed.

Lemma last_index_last (cm : list rgb) (n : nat) (c : rgb) :
  cm !! n = Some c →
  (∀ n' c', n < n' → cm !! n' = Some c' → pack c' ≠ pack c) →
  last_index (pack c) 0 cm = Some n.
Proof.
  intros Hn Hlast.
  destruct (last_index (pack c) 0 cm) as [j|] eqn:Hj.
  - destruct (last_index_Some _ _ _ _ Hj) as (m & c' & -> & Hm & Hk & Hlater).
    simpl. f_equal.
    destruct (Nat.lt_trichotomy m n) as [Hlt|[->|Hgt]]; [|done|].
    + exfalso. by apply (Hlater n c Hlt Hn).
    + exfalso. by apply (Hlast m c' Hgt Hm).
  - apply last_index_None in Hj. exfalso. apply Hj.
    apply list_elem_of_fmap. exists c. split; [done|].
    by eapply list_elem_of_lookup_2.
Qed.

(** X1: for every palette of at most 2^24 8-bit colours, also one that
    names a colour more than once, the loop ends without an exception; the
    cell at the key of a colour holds the index of the colour's last
    occurrence, and the key of an 8-bit colour that is not in the palette
    keeps the 0 of [nd.zeros].  (Indices up to 2^24 are exact in the
    table's float32 cells.) *)
Theorem build_colormap2label_last_wins (cm : list rgb) :
  (Z.of_nat (length cm) <= 2 ^ 24)%Z →
  Forall rgb_uint8 cm →
  ∃ t, build_colormap2label cm = Ok t
       ∧ nd_size t = (256 ^ 3)%Z
       ∧ (∀ n c, cm !! n = Some c →
                 (∀ n', n < n' → cm !! n' ≠ Some c) →
                 nd_item t (pack c) = Z.of_nat n)
       ∧ (∀ c, rgb_uint8 c → c ∉ cm → nd_item t (pack c) = 0%Z).
Proof.
  intros _ H8.
  destruct (colormap2label_loop_last cm 0 (nd_zeros (256 ^ 3)))
    as (t & Hrun & Hsz & Hcell).
  { eapply Forall_impl; [exact H8|]. intros c Hc. by apply pack_range. }
  exists t. split; [exact Hrun|]. split; [exact Hsz|]. split.
  - intros n c Hn Hlast. rewrite Hcell.
    rewrite (last_index_last cm n c Hn); [done|].
    intros n' c' Hlt Hn' Hk. apply (Hlast n' Hlt).
    rewrite Hn'. f_equal. apply pack_inj; [| |done].
    + rewrite Forall_forall in H8. apply H8.
      by eapply list_elem_of_lookup_2.
    + rewrite Forall_forall in H8. apply H8.
      by eapply list_elem_of_lookup_2.
  - intros c Hc Hnot. rewrite Hcell.
    assert (last_index (pack c) 0 cm = None) as ->.
    { apply last_index_None. intros Hin.
      apply list_elem_of_fmap in Hin as (c' & Heq & Hc').
      apply Hnot. rewrite (pack_inj c c'); [done|done| |done].
      rewrite Forall_forall in H8. by apply H8. }
    apply nd_item_zeros.
Qed.

Lemma repeated_palette_last_wins :
  (Z.of_nat (length repeated_palette) <= 2 ^ 24)%Z
  ∧ Forall rgb_uint8 repeated_palette
  ∧ ∃ t, build_colormap2label repeated_palette = Ok t
         ∧ nd_item t (pack (1, 2, 3)%Z) = 2%Z
         ∧ nd_item t (pack (7, 7, 7)%Z) = 0%Z.
Proof.
  assert (H8 : Forall rgb_uint8 repeated_palette).
  { unfold repeated_palette. repeat constructor; simpl; lia. }
  assert (Hlen : (Z.of_nat (length repeated_palette) <= 2 ^ 24)%Z)
    by (by vm_compute).
  split; [exact Hlen|]. split; [exact H8|].
  destruct (build_colormap2label_last_wins repeated_palette Hlen H8)
    as (t & Hrun & _ & Hhit & Hmiss).
  exists t. split; [exact Hrun|]. split.
  - apply (Hhit 2 (1, 2, 3)%Z); [reflexivity|].
    intros [|[|[|n']]] Hlt; (lia || done).
  - apply (Hmiss (7, 7, 7)%Z).
    + unfold rgb_uint8, is_uint8; simpl; lia.
    + apply (bool_decide_unpack ((7, 7, 7)%Z ∉ repeated_palette)).
      vm_compute. exact I.
Defined.

(** ** What the decoder can return *)

Lemma colormap2label_cell (k : Z) :
  nd_item colormap2label k = 0%Z
  ∨ ∃ i c, VOC_COLORMAP !! i = Some c ∧ pack c = k
           ∧ nd_item colormap2label k = Z.of_nat i.
Proof.
  destruct colormap2label_table as (_ & _ & Hhit & Hmiss).
  destruct (decide (k ∈ pack <$> VOC_COLORMAP)) as [Hin|Hnot].
  - right. apply list_elem_of_fmap in Hin as (c & -> & Hc).
    apply list_elem_of_lookup in Hc as [i Hi].
    exists i, c. split; [done|]. split; [done|]. by apply Hhit.
  - left. by apply Hmiss.
Qed.

(** X2: at an 8-bit pixel, whatever its colour, the value that
    [voc_label_indices] returns with the table [colormap2label] is a class
    index: it lies in 0..20, and [VOC_CLASSES] has a name for it. *)
Theorem voc_label_indices_class_index (label : image Z) (y x : nat) :
  rgb_uint8 (item label y x) →
  (0 <= item (voc_label_indices label colormap2label) y x <= 20)%Z
  ∧ is_Some (VOC_CLASSES
               !! Z.to_nat (item (voc_label_indices label colormap2label) y x)).
Proof.
  intros H8. rewrite voc_label_indices_item by done.
  set (v := nd_item colormap2label (pack (item label y x))).
  assert (Hv : (0 <= v <= 20)%Z).
  { subst v.
    destruct (colormap2label_cell (pack (item label y x)))
      as [->|(i & c & Hi & _ & ->)]; [lia|].
    apply lookup_lt_Some in Hi. simpl in Hi. lia. }
  split; [exact Hv|].
  apply lookup_lt_is_Some. simpl. lia.
Qed.

Lemma border_pixel_class_index :
  rgb_uint8 (item border_label 0 1)
  ∧ (0 <= item (voc_label_indices border_label colormap2label) 0 1 <= 20)%Z
  ∧ is_Some (VOC_CLASSES
               !! Z.to_nat (item (voc_label_indices border_label
                                    colormap2label) 0 1)).
Proof.
  assert (H8 : rgb_uint8 (item border_label 0 1))
    by (unfold rgb_uint8, is_uint8; simpl; lia).
  split; [exact H8|].
  apply (voc_label_indices_class_index border_label 0 1 H8).
Defined.

(** X3: for an 8-bit pixel and a class i other than background, the decoder
    returns i exactly when the pixel has the palette colour of index i; a
    value other than 0 is never the result of a colour outside the
    palette. *)
Theorem voc_label_indices_class_colour (label : image Z) (y x i : nat) :
  rgb_uint8 (item label y x) →
  0 < i →
  item (voc_label_indices label colormap2label) y x = Z.of_nat i
  ↔ VOC_COLORMAP !! i = Some (item label y x).
Proof.
  intros H8 Hi. rewrite voc_label_indices_item by done.
  destruct colormap2label_table as (_ & _ & Hhit & _).
  split; [|by apply Hhit].
  intros Hval.
  destruct (colormap2label_cell (pack (item label y x)))
    as [H0|(j & c & Hj & Hk & Hcell)]; [lia|].
  assert (Hji : j = i) by lia. rewrite Hji in Hj.
  transitivity (Some c); [exact Hj|]. f_equal. apply pack_inj; [|done|done].
  pose proof VOC_COLORMAP_uint8 as Hall. rewrite Forall_forall in Hall.
  by eapply Hall, list_elem_of_lookup_2.
Qed.

Lemma palette_label_train :
  rgb_uint8 (item palette_label 1 1)
  ∧ (item (voc_label_indices palette_label colormap2label) 1 1 = 19%Z
     ↔ VOC_COLORMAP !! 19 = Some (item palette_label 1 1)).
Proof.
  split; [unfold rgb_uint8, is_uint8; simpl; lia|].
  apply (voc_label_indices_class_colour palette_label 1 1 19).
  - unfold rgb_uint8, is_uint8; simpl; lia.
  - lia.
Defined.

(** ** The crop, outside the case of the claims *)

Section CropFurther.
Variable imresize : ∀ T : Type, image T → nat → nat → image T.

(** The result of the crop that fits, cell by cell. *)
Lemma voc_rand_crop_fit {A B} (feature : image A) (label : image B)
    (height width : nat) (g : rng) :
  0 < height ≤ shape0 feature → 0 < width ≤ shape1 feature →
  shape0 feature ≤ shape0 label → shape1 feature ≤ shape1 label →
  voc_rand_crop imresize feature label height width g
  = Ok (crop_at feature (offset (shape0 feature) height (g 1))
                (offset (shape1 feature) width (g 0)) height width,
        crop_at label (offset (shape0 feature) height (g 1))
                (offset (shape1 feature) width (g 0)) height width,
        fun k => g (S (S k))).
Proof.
  intros [Hh0 Hh] [Hw0 Hw] HH HW.
  pose proof (offset_le (shape1 feature) width (g 0) Hw) as Hx.
  pose proof (offset_le (shape0 feature) height (g 1) Hh) as Hy.
  unfold voc_rand_crop, random_crop.
  rewrite scale_down_fit by done.
  rewrite randint_offset by done. simpl.
  rewrite randint_offset by done. simpl.
  fold (offset (shape1 feature) width (g 0)).
  fold (offset (shape0 feature) height (g 1)).
  unfold fixed_crop.
  rewrite (nd_slice_inside feature) by lia. simpl.
  rewrite decide_True by done. simpl.
  rewrite (nd_slice_inside label) by lia. reflexivity.
Qed.

(** X4: a pair that has exactly the crop size is returned whole, whatever
    the generator draws: both crops have the cells of their sources. *)
Theorem voc_rand_crop_whole {A B} (feature : image A) (label : image B)
    (g : rng) :
  0 < shape0 feature → 0 < shape1 feature → same_shape feature label →
  ∃ f l g',
    voc_rand_crop imresize feature label (shape0 feature) (shape1 feature) g
    = Ok (f, l, g')
    ∧ same_shape f feature ∧ same_shape l label
    ∧ (∀ i j, item f i j = item feature i j)
    ∧ (∀ i j, item l i j = item label i j).
Proof.
  intros Hh Hw [H0 H1].
  rewrite voc_rand_crop_fit by lia.
  assert (Hoff : ∀ n d, offset n n d = 0).
  { intros n d. unfold offset.
    replace (Z.of_nat n - Z.of_nat n - 0 + 1)%Z with 1%Z by lia.
    by rewrite Z.mod_1_r. }
  rewrite !Hoff. eexists _, _, _. split; [reflexivity|].
  unfold same_shape, crop_at; simpl. repeat split; lia.
Qed.

End CropFurther.


(** The 9 x 1 pair with the crop size 14 x 2: the rectangle is 6 x 1, by
    the rounding of the binary64 quotient, and the label crop is 6 x 1. *)
Example narrow_feature_crop :
  match voc_rand_crop imresize_full narrow_feature narrow_feature 14 2 draws
  with
  | Ok (f, l, _) =>
      shape0 f = 14 ∧ shape1 f = 2 ∧ shape0 l = 6 ∧ shape1 l = 1
  | Raise _ => False
  end.
Proof. vm_compute. repeat split. Qed.

Lemma tagged_pair_whole :
  ∃ f l g',
    voc_rand_crop imresize_keep tagged_feature tagged_label
                  (shape0 tagged_feature) (shape1 tagged_feature) draws
    = Ok (f, l, g')
    ∧ same_shape f tagged_feature ∧ same_shape l tagged_label
    ∧ (∀ i j, item f i j = item tagged_feature i j)
    ∧ (∀ i j, item l i j = item tagged_label i j).
Proof.
  apply (voc_rand_crop_whole imresize_keep tagged_feature tagged_label draws);
    [simpl; lia|simpl; lia|by split].
Defined.

(** ** The data set, further *)

Lemma filter_sublist {A} (p : A → bool) (l : list A) :
  List.filter p l `sublist_of` l.
Proof.
  induction l as [|a l IH]; simpl; [constructor|].
  destruct (p a); by constructor.
Qed.

Lemma filter_sublist_mono {A} (p q : A → bool) (l : list A) :
  (∀ a, q a = true → p a = true) →
  List.filter q l `sublist_of` List.filter p l.
Proof.
  intros Hqp. induction l as [|a l IH]; simpl; [constructor|].
  destruct (q a) eqn:Hq.
  - rewrite (Hqp a Hq). by constructor.
  - destruct (p a); [by constructor|done].
Qed.

Lemma filter_length_all {A} (p : A → bool) (l : list A) :
  length (List.filter p l) = length l ↔ Forall (fun a => p a = true) l.
Proof.
  induction l as [|a l IH]; simpl; [by split|].
  pose proof (sublist_length _ _ (filter_sublist p l)) as Hle.
  destruct (p a) eqn:Hp; simpl.
  - rewrite Forall_cons. split.
    + intros [= Hlen]. split; [done|]. by apply IH.
    + intros [_ Hall]. f_equal. by apply IH.
  - split; [lia|]. intros Hall. apply Forall_cons in Hall as [Ha _]. congruence.
Qed.

(** The pair of images that the two filtered lists hold at one index comes
    from one index of the input. *)
Lemma filter_pair_origin {A B} (pa : A → bool) (pb : B → bool)
    (R : A → B → Prop) (l : list A) (k : list B) (i : nat) (a : A) (b : B) :
  (∀ a b, R a b → pa a = pb b) →
  Forall2 R l k →
  List.filter pa l !! i = Some a → List.filter pb k !! i = Some b →
  ∃ n, l !! n = Some a ∧ k !! n = Some b.
Proof.
  intros Hagree HR Ha Hb.
  assert (Hp : zip (List.filter pa l) (List.filter pb k) !! i = Some (a, b)).
  { apply lookup_zip_with_Some. by exists a, b. }
  rewrite (filter_zip pa pb R Hagree l k HR) in Hp.
  apply list_elem_of_lookup_2, list_elem_of_In, filter_In in Hp as [Hin _].
  apply list_elem_of_In, list_elem_of_lookup in Hin as [n Hn].
  apply lookup_zip_with_Some in Hn as (a' & b' & Heq & Ha' & Hb').
  injection Heq as -> ->. by exists n.
Qed.

Section AccessFurther.
Context {F : Type} {arith : Float32 F}.
Variable imresize : ∀ T : Type, image T → nat → nat → image T.

(** X7: what [__getitem__] returns at a valid index of a data set built from
    pairs of equal height and width with 8-bit labels.  There is one input
    pair and one offset (y0, x0) inside it such that the feature returned
    holds, at channel c and position (i, j), the normalised channel c of the
    pair's image at (y0 + i, x0 + j), and the label map holds at (i, j) the
    table's cell for the colour of the pair's label at the same
    (y0 + i, x0 + j).  The call takes two draws from the generator. *)
Theorem getitem_cells (features labels : list (image Z)) (cropH cropW : nat)
    (table : ndarray1) (idx : Z) (g : rng) :
  Forall2 same_shape features labels →
  Forall uint8_image labels →
  0 < cropH → 0 < cropW →
  (0 <= idx < Z.of_nat
     (VOCSegDataset.__len__
        (VOCSegDataset.__init__ (features, labels) (cropH, cropW) table).1))%Z →
  ∃ n raw lab y0 x0 feature label,
    features !! n = Some raw ∧ labels !! n = Some lab
    ∧ y0 + cropH ≤ shape0 raw ∧ x0 + cropW ≤ shape1 raw
    ∧ VOCSegDataset.__getitem__ imresize
        (VOCSegDataset.__init__ (features, labels) (cropH, cropW) table).1
        idx g
      = Ok (feature, label, fun k => g (S (S k)))
    ∧ (∀ c i j, c < 3 → i < cropH → j < cropW →
         item3 feature c i j
         = spec_normalize (mean_dec c) (std_dec c)
             (chan c (item raw (y0 + i) (x0 + j))))
    ∧ (∀ i j, i < cropH → j < cropW →
         item label i j = nd_item table (pack (item lab (y0 + i) (x0 + j)))).
Proof.
  intros Hpairs H8 HcH HcW Hidx.
  unfold VOCSegDataset.__len__, VOCSegDataset.__init__ in Hidx; simpl in Hidx.
  rewrite length_fmap in Hidx.
  destruct (lookup_lt_is_Some_2
              (VOCSegDataset.filter (cropH, cropW) features) (Z.to_nat idx))
    as [raw Hraw]; [lia|].
  pose proof (filter_Forall2 (fits (cropH, cropW)) (fits (cropH, cropW))
                same_shape (fits_same_shape (cropH, cropW))
                features labels Hpairs) as Hkept.
  destruct (Forall2_lookup_l _ _ _ _ _ Hkept Hraw) as (lab & Hlab & [Hs0 Hs1]).
  destruct (filter_lookup_fits _ _ _ _ Hraw) as [Hf0 Hf1]; simpl in Hf0, Hf1.
  destruct (filter_pair_origin (fits (cropH, cropW)) (fits (cropH, cropW))
              same_shape features labels (Z.to_nat idx) raw lab
              (fits_same_shape (cropH, cropW)) Hpairs Hraw Hlab)
    as (n & Hn_raw & Hn_lab).
  set (nf := VOCSegDataset.normalize_image VOCSegDataset.init_rgb_mean
               VOCSegDataset.init_rgb_std raw).
  pose proof (offset_le (shape1 raw) cropW (g 0) Hf1) as Hx.
  pose proof (offset_le (shape0 raw) cropH (g 1) Hf0) as Hy.
  exists n, raw, lab, (offset (shape0 raw) cropH (g 1)),
    (offset (shape1 raw) cropW (g 0)).
  unfold VOCSegDataset.__getitem__, VOCSegDataset.__init__; simpl.
  rewrite (py_getitem_nonneg _ idx nf) by
    (lia || by rewrite list_lookup_fmap, Hraw). simpl.
  rewrite (py_getitem_nonneg _ idx lab) by (lia || done). simpl.
  rewrite (voc_rand_crop_fit imresize nf lab cropH cropW g) by (simpl; lia).
  simpl. eexists _, _. do 4 (split; [done|]). split; [reflexivity|]. split.
  - intros [|[|[|c]]] i j Hc _ _; [reflexivity..|lia].
  - intros i j Hi Hj. rewrite voc_label_indices_item; [reflexivity|].
    simpl. rewrite Forall_forall in H8.
    apply (H8 lab); [by eapply list_elem_of_lookup_2|lia|lia].
Qed.

(** X8: an index that is valid for the features but not for the labels
    raises [IndexError]: [__len__] counts the features alone, and the two
    lists are filtered separately, so labels that do not fit where their
    features do leave the list of labels shorter. *)
Theorem getitem_short_labels (features labels : list (image Z))
    (crop_size : nat * nat) (table : ndarray1) (idx : Z) (g : rng) :
  (0 <= idx < Z.of_nat
     (VOCSegDataset.__len__
        (VOCSegDataset.__init__ (features, labels) crop_size table).1))%Z →
  (Z.of_nat (length (List.filter (fits crop_size) labels)) <= idx)%Z →
  VOCSegDataset.__getitem__ imresize
    (VOCSegDataset.__init__ (features, labels) crop_size table).1 idx g
  = Raise IndexError.
Proof.
  intros Hidx Hshort.
  unfold VOCSegDataset.__len__, VOCSegDataset.__init__ in Hidx; simpl in Hidx.
  match type of Hidx with
  | context [length ?l] =>
      destruct (lookup_lt_is_Some_2 l (Z.to_nat idx)) as [nf Hnf]; [lia|]
  end.
  unfold VOCSegDataset.__getitem__, VOCSegDataset.__init__; simpl.
  rewrite (py_getitem_nonneg _ idx nf) by (lia || exact Hnf). simpl.
  rewrite py_getitem_outside; [reflexivity|].
  left. unfold VOCSegDataset.filter. lia.
Qed.
End AccessFurther.

(** X9: the constructor only leaves examples out.  The stored labels are
    the input labels that fit, in their order; the stored features are the
    normalised input features that fit, in their order; every stored image
    is at least as high and as wide as the crop size; and the length is at
    most the number of input features. *)
Theorem init_only_drops {F} {arith : Float32 F}
    (features labels : list (image Z)) (cropH cropW : nat) (table : ndarray1) :
  let self :=
    (VOCSegDataset.__init__ (features, labels) (cropH, cropW) table).1 in
  VOCSegDataset.labels self `sublist_of` labels
  ∧ (∃ kept, kept `sublist_of` features
             ∧ VOCSegDataset.features self
               = VOCSegDataset.normalize_image VOCSegDataset.init_rgb_mean
                   VOCSegDataset.init_rgb_std <$> kept)
  ∧ Forall (fun f => cropH ≤ shape0 f ∧ cropW ≤ shape1 f)
           (VOCSegDataset.features self)
  ∧ Forall (fun l => cropH ≤ shape0 l ∧ cropW ≤ shape1 l)
           (VOCSegDataset.labels self)
  ∧ VOCSegDataset.__len__ self ≤ length features.
Proof.
  intros self. subst self.
  unfold VOCSegDataset.__len__, VOCSegDataset.__init__,
    VOCSegDataset.filter; simpl.
  split; [apply filter_sublist|].
  split; [exists (List.filter (fits (cropH, cropW)) features);
          split; [apply filter_sublist|done]|].
  split; [|split].
  - apply Forall_fmap, Forall_forall. intros f Hf. simpl.
    apply list_elem_of_In, filter_In in Hf as [_ Hf].
    by apply fits_spec in Hf.
  - apply Forall_forall. intros l Hl.
    apply list_elem_of_In, filter_In in Hl as [_ Hl].
    by apply fits_spec in Hl.
  - rewrite length_fmap. apply sublist_length, filter_sublist.
Qed.

(** X10: a larger crop size never gives a longer data set: the examples
    kept for the larger size are among those kept for the smaller one. *)
Theorem len_antitone {F} {arith : Float32 F}
    (features labels : list (image Z)) (cropH cropW cropH' cropW' : nat)
    (table : ndarray1) :
  cropH ≤ cropH' → cropW ≤ cropW' →
  VOCSegDataset.__len__
    (VOCSegDataset.__init__ (features, labels) (cropH', cropW') table).1
  ≤ VOCSegDataset.__len__
      (VOCSegDataset.__init__ (features, labels) (cropH, cropW) table).1
  ∧ VOCSegDataset.labels
      (VOCSegDataset.__init__ (features, labels) (cropH', cropW') table).1
    `sublist_of`
    VOCSegDataset.labels
      (VOCSegDataset.__init__ (features, labels) (cropH, cropW) table).1.
Proof.
  intros HH HW.
  assert (Hmono : ∀ A (img : ndarray2 A),
            fits (cropH', cropW') img = true → fits (cropH, cropW) img = true).
  { intros A img Hfit. apply fits_spec in Hfit as [H0 H1]; simpl in H0, H1.
    apply fits_spec; simpl. lia. }
  unfold VOCSegDataset.__len__, VOCSegDataset.__init__,
    VOCSegDataset.filter; simpl.
  split.
  - rewrite !length_fmap. apply sublist_length, filter_sublist_mono, Hmono.
  - apply filter_sublist_mono, Hmono.
Qed.

(** X11: the data set is as long as the list of features exactly when every
    feature is at least as high and as wide as the crop size. *)
Theorem len_all_kept {F} {arith : Float32 F}
    (features labels : list (image Z)) (cropH cropW : nat) (table : ndarray1) :
  VOCSegDataset.__len__
    (VOCSegDataset.__init__ (features, labels) (cropH, cropW) table).1
  = length features
  ↔ Forall (fun f => cropH ≤ shape0 f ∧ cropW ≤ shape1 f) features.
Proof.
  unfold VOCSegDataset.__len__, VOCSegDataset.__init__,
    VOCSegDataset.filter; simpl.
  rewrite length_fmap, filter_length_all.
  apply Forall_iff. intros f. apply (fits_spec (cropH, cropW) f).
Qed.

Lemma five_labels_uint8 : Forall uint8_image five_labels.
Proof.
  unfold five_labels.
  repeat (apply List.Forall_cons; [apply uint8_image_check; reflexivity|]).
  apply List.Forall_nil.
Qed.

Lemma five_pairs_cells :
  Forall2 same_shape five_features five_labels
  ∧ Forall uint8_image five_labels
  ∧ ∃ n raw lab y0 x0 feature label,
      five_features !! n = Some raw ∧ five_labels !! n = Some lab
      ∧ y0 + 3 ≤ shape0 raw ∧ x0 + 4 ≤ shape1 raw
      ∧ VOCSegDataset.__getitem__ imresize_keep five_dataset 2 draws
        = Ok (feature, label, fun k => draws (S (S k)))
      ∧ (∀ c i j, c < 3 → i < 3 → j < 4 →
           item3 feature c i j
           = spec_normalize (mean_dec c) (std_dec c)
               (chan c (item raw (y0 + i) (x0 + j))))
      ∧ (∀ i j, i < 3 → j < 4 →
           item label i j
           = nd_item colormap2label (pack (item lab (y0 + i) (x0 + j)))).
Proof.
  assert (Hpairs : Forall2 same_shape five_features five_labels)
    by (repeat constructor).
  split; [exact Hpairs|]. split; [exact five_labels_uint8|].
  apply (getitem_cells (arith := Q_arith) imresize_keep five_features
           five_labels 3 4 colormap2label 2 draws Hpairs five_labels_uint8);
    [lia|lia|].
  split; [lia|reflexivity].
Defined.

Lemma uneven_pairs_index_error :
  VOCSegDataset.__len__
    (VOCSegDataset.__init__ (arith := Q_arith)
       (uneven_features, uneven_labels) (3, 4) colormap2label).1 = 2
  ∧ VOCSegDataset.__getitem__ imresize_keep
      (VOCSegDataset.__init__ (arith := Q_arith)
         (uneven_features, uneven_labels) (3, 4) colormap2label).1 1 draws
    = Raise IndexError.
Proof.
  split; [reflexivity|].
  apply (getitem_short_labels (arith := Q_arith) imresize_keep
           uneven_features uneven_labels (3, 4) colormap2label 1 draws).
  - split; [lia|reflexivity].
  - by vm_compute.
Defined.

Lemma five_pairs_larger_crop :
  VOCSegDataset.__len__
    (VOCSegDataset.__init__ (arith := Q_arith)
       (five_features, five_labels) (4, 5) colormap2label).1
  ≤ VOCSegDataset.__len__ five_dataset
  ∧ VOCSegDataset.__len__
      (VOCSegDataset.__init__ (arith := Q_arith)
         (five_features, five_labels) (4, 5) colormap2label).1 = 2.
Proof.
  split; [|reflexivity].
  apply (len_antitone (arith := Q_arith) five_features five_labels 3 4 4 5
           colormap2label); lia.
Defined.

(** ** Reading the index file and the pictures *)

Lemma append_cons (a : Ascii.ascii) (s t : string) :
  String a s +:+ t = String a (s +:+ t).
Proof. reflexivity. Qed.

Lemma append_empty_l (t : string) : EmptyString +:+ t = t.
Proof. reflexivity. Qed.

Lemma append_empty_r (w : string) : w +:+ EmptyString = w.
Proof.
  induction w as [|b w IH]; [done|]. by rewrite append_cons, IH.
Qed.

Lemma append_snoc (w s : string) (a : Ascii.ascii) :
  (w +:+ String a EmptyString) +:+ s = w +:+ String a s.
Proof.
  induction w as [|b w IH]; [done|]. by rewrite !append_cons, IH.
Qed.

Lemma py_split_from_word (id : string) :
  ∀ (w rest : string),
    Forall (fun a => is_space a = false) (String.list_ascii_of_string id) →
    py_split_from w (id +:+ rest) = py_split_from (w +:+ id) rest.
Proof.
  induction id as [|a id IH]; intros w rest Hns.
  - by rewrite append_empty_l, append_empty_r.
  - simpl in Hns. apply Forall_cons in Hns as [Ha Hns].
    rewrite append_cons. simpl. rewrite Ha, (IH _ rest Hns).
    by rewrite append_snoc.
Qed.

(** X12: an index file that lists identifiers one per line, each ended by a
    line feed, is split into exactly those identifiers, in order, provided
    every identifier is a non-empty word of ASCII characters that holds no
    space character. *)
Theorem py_split_index_file (ids : list string) :
  Forall no_space ids → py_split (index_file ids) = ids.
Proof.
  unfold py_split. induction 1 as [|id ids [Hne Hascii] _ IH]; [done|].
  assert (Hns : Forall (fun a => is_space a = false)
                       (String.list_ascii_of_string id)).
  { eapply Forall_impl; [exact Hascii|]. by intros a [_ ?]. }
  simpl. rewrite (py_split_from_word id EmptyString _ Hns).
  rewrite append_empty_l. simpl.
  rewrite decide_False by done. simpl. by rewrite IH.
Qed.

Lemma two_ids_no_space : Forall no_space two_ids.
Proof.
  unfold two_ids. repeat constructor; try done;
    apply (bool_decide_unpack _); vm_compute; exact I.
Qed.

Lemma two_ids_split :
  Forall no_space two_ids ∧ py_split (index_file two_ids) = two_ids.
Proof.
  split; [exact two_ids_no_space|].
  apply (py_split_index_file two_ids two_ids_no_space).
Defined.

Section ReadProperties.
Variable read_text : string → result string.
Variable imread : string → result (image Z).

Lemma py_setitem_inside {T} (l : list T) (i : nat) (x : T) :
  i < length l → py_setitem l i x = Ok (<[i := x]> l).
Proof.
  intros Hi. unfold py_setitem.
  destruct (Nat.ltb_spec i (length l)); [done|lia].
Qed.

Lemma read_voc_images_loop_fills (root : string) (images : list string) :
  ∀ (i : nat) (fs ls : list (option (image Z))),
    i + length images ≤ length fs → i + length images ≤ length ls →
    Forall (fun name => is_ok (imread (jpg_path root name)) = true
                        ∧ is_ok (imread (png_path root name)) = true) images →
    ∃ fs' ls',
      read_voc_images_loop imread root i images fs ls = Ok (fs', ls')
      ∧ length fs' = length fs ∧ length ls' = length ls
      ∧ (∀ j name, images !! j = Some name →
           ∃ f l, imread (jpg_path root name) = Ok f
                  ∧ imread (png_path root name) = Ok l
                  ∧ fs' !! (i + j) = Some (Some f)
                  ∧ ls' !! (i + j) = Some (Some l))
      ∧ (∀ j, j < i → fs' !! j = fs !! j ∧ ls' !! j = ls !! j).
Proof.
  induction images as [|name images IH]; intros i fs ls Hfs Hls Hok; simpl in *.
  - exists fs, ls. split; [done|]. split; [done|]. split; [done|].
    split; [|done]. intros j name Hj. by rewrite lookup_nil in Hj.
  - apply Forall_cons in Hok as [[Hf Hl] Hok].
    destruct (imread (jpg_path root name)) as [f|] eqn:Hjpg; [|done].
    destruct (imread (png_path root name)) as [l|] eqn:Hpng; [|done].
    simpl. rewrite py_setitem_inside by lia. simpl.
    rewrite py_setitem_inside by lia. simpl.
    destruct (IH (S i) (<[i := Some f]> fs) (<[i := Some l]> ls))
      as (fs' & ls' & Hrun & Hlf & Hll & Hnew & Hold);
      [rewrite length_insert; lia|rewrite length_insert; lia|done|].
    rewrite !length_insert in *.
    exists fs', ls'. split; [done|]. split; [done|]. split; [done|]. split.
    + intros [|j] name' Hj; simpl in Hj.
      * injection Hj as <-. exists f, l. split; [done|]. split; [done|].
        rewrite Nat.add_0_r. destruct (Hold i ltac:(lia)) as [-> ->].
        split; apply list_lookup_insert_eq; lia.
      * destruct (Hnew j name' Hj) as (f' & l' & ? & ? & Hf' & Hl').
        exists f', l'. replace (i + S j) with (S i + j) by lia. done.
    + intros j Hj. destruct (Hold j ltac:(lia)) as [-> ->].
      split; apply list_lookup_insert_ne; lia.
Qed.

(** X13: when the index file and every picture it names can be read,
    [read_voc_images] returns two lists as long as the list of identifiers
    in which no slot is left [None]: slot j of the features is the picture
    [JPEGImages/<id>.jpg] and slot j of the labels is the picture
    [SegmentationClass/<id>.png] of the same j-th identifier. *)
Theorem read_voc_images_paired (root : string) (is_train : bool)
    (text : string) :
  read_text (root +:+ "/ImageSets/Segmentation/"
                  +:+ (if is_train then "train.txt" else "val.txt"))
  = Ok text →
  Forall (fun name => is_ok (imread (jpg_path root name)) = true
                      ∧ is_ok (imread (png_path root name)) = true)
         (py_split text) →
  ∃ features labels,
    read_voc_images read_text imread root is_train = Ok (features, labels)
    ∧ length features = length (py_split text)
    ∧ length labels = length (py_split text)
    ∧ ∀ j name, py_split text !! j = Some name →
        ∃ f l, imread (jpg_path root name) = Ok f
               ∧ imread (png_path root name) = Ok l
               ∧ features !! j = Some (Some f)
               ∧ labels !! j = Some (Some l).
Proof.
  intros Htext Hok. unfold read_voc_images. rewrite Htext. simpl.
  destruct (read_voc_images_loop_fills root (py_split text) 0
              (replicate (length (py_split text)) None)
              (replicate (length (py_split text)) None))
    as (fs' & ls' & Hrun & Hlf & Hll & Hnew & _);
    [rewrite length_replicate; lia|rewrite length_replicate; lia|done|].
  rewrite length_replicate in Hlf, Hll.
  exists fs', ls'. by repeat (split; [done|]).
Qed.

Lemma read_voc_images_loop_fails (root : string) (images : list string) :
  Exists (fun name => is_ok (imread (jpg_path root name)) = false
                      ∨ is_ok (imread (png_path root name)) = false) images →
  ∀ (i : nat) (fs ls : list (option (image Z))),
    is_ok (read_voc_images_loop imread root i images fs ls) = false.
Proof.
  induction 1 as [name images Hbad|name images _ IH]; intros i fs ls; simpl.
  - destruct (imread (jpg_path root name)) as [f|]; [|done]. simpl.
    destruct (py_setitem fs i (Some f)); [|done]. simpl.
    destruct (imread (png_path root name)) as [l|]; [|done].
    by destruct Hbad.
  - destruct (imread (jpg_path root name)) as [f|]; [|done]. simpl.
    destruct (py_setitem fs i (Some f)); [|done]. simpl.
    destruct (imread (png_path root name)) as [l|]; [|done]. simpl.
    destruct (py_setitem ls i (Some l)); [|done]. simpl. apply IH.
Qed.

(** X14: one picture that cannot be read fails the whole call:
    [read_voc_images] returns no partial lists. *)
Theorem read_voc_images_all_or_nothing (root : string) (is_train : bool) :
  (∀ text,
     read_text (root +:+ "/ImageSets/Segmentation/"
                     +:+ (if is_train then "train.txt" else "val.txt"))
     = Ok text →
     Exists (fun name => is_ok (imread (jpg_path root name)) = false
                         ∨ is_ok (imread (png_path root name)) = false)
            (py_split text)) →
  is_ok (read_voc_images read_text imread root is_train) = false.
Proof.
  intros Hbad. unfold read_voc_images.
  destruct (read_text _) as [text|] eqn:Htext; [|done]. simpl.
  apply read_voc_images_loop_fails. by apply Hbad.
Qed.
End ReadProperties.

Lemma disk_read_paired :
  ∃ features labels,
    read_voc_images disk_text disk_image "voc" true = Ok (features, labels)
    ∧ length features = length (py_split (index_file two_ids))
    ∧ length labels = length (py_split (index_file two_ids))
    ∧ ∀ j name, py_split (index_file two_ids) !! j = Some name →
        ∃ f l, disk_image (jpg_path "voc" name) = Ok f
               ∧ disk_image (png_path "voc" name) = Ok l
               ∧ features !! j = Some (Some f)
               ∧ labels !! j = Some (Some l).
Proof.
  apply (read_voc_images_paired disk_text disk_image "voc" true
           (index_file two_ids)).
  - reflexivity.
  - assert (Hsplit : py_split (index_file two_ids) = two_ids)
      by (vm_compute; reflexivity).
    rewrite Hsplit. unfold two_ids. repeat constructor.
Defined.

Lemma disk_read_missing_picture :
  is_ok (read_voc_images disk_text_three disk_image "voc" true) = false.
Proof.
  apply (read_voc_images_all_or_nothing disk_text_three disk_image "voc" true).
  intros text Htext.
  change (Ok (index_file three_ids) = Ok text) in Htext.
  assert (Htext' : text = index_file three_ids) by congruence.
  rewrite Htext'.
  assert (Hsplit : py_split (index_file three_ids) = three_ids)
    by (vm_compute; reflexivity).
  rewrite Hsplit.
  change three_ids with [ "2007_000032"; "2007_000039"; "2007_000042" ]%string.
  do 2 apply Exists_cons_tl. apply Exists_cons_hd.
  left. vm_compute. reflexivity.
Defined.

(** ** The cell that shows n random crops *)

Lemma every_second_pairs {T} (ps : list (T * T)) :
  py_evens (flat_map (fun p => [p.1; p.2]) ps) = ps.*1
  ∧ py_odds (flat_map (fun p => [p.1; p.2]) ps) = ps.*2.
Proof.
  unfold py_evens, py_odds.
  induction ps as [|[a b] ps [IHe IHo]]; [done|]. split.
  - simpl. by rewrite IHe.
  - destruct ps as [|[a' b'] ps']; [done|].
    simpl in *. f_equal. exact IHo.
Qed.

Section CropDemoProperties.
Variable imresize : ∀ T : Type, image T → nat → nat → image T.

Lemma rand_crop_loop_spec (feature label : image Z) (g0 : rng) (n : nat) :
  200 ≤ shape0 feature → 300 ≤ shape1 feature →
  shape0 feature ≤ shape0 label → shape1 feature ≤ shape1 label →
  ∀ (b : nat) (g : rng) (imgs : list (image Z)),
    (∀ m, g m = g0 (2 * b + m)) →
    ∃ g',
      rand_crop_loop imresize n feature label g imgs
      = Ok (imgs ++ flat_map (fun p => [p.1; p.2])
                      ((fun k => (shown_crop feature (shape0 feature)
                                    (shape1 feature) g0 k,
                                  shown_crop label (shape0 feature)
                                    (shape1 feature) g0 k)) <$> seq b n),
            g')
      ∧ ∀ m, g' m = g0 (2 * (b + n) + m).
Proof.
  intros HH HW HlH HlW.
  induction n as [|n IH]; intros b g imgs Hg; simpl.
  - exists g. rewrite app_nil_r. split; [done|].
    intros m. rewrite Hg. f_equal. lia.
  - rewrite voc_rand_crop_fit by lia. simpl.
    destruct (IH (S b) (fun k => g (S (S k)))
                (imgs ++ [crop_at feature (offset (shape0 feature) 200 (g 1))
                            (offset (shape1 feature) 300 (g 0)) 200 300;
                          crop_at label (offset (shape0 feature) 200 (g 1))
                            (offset (shape1 feature) 300 (g 0)) 200 300]))
      as (g' & Hrun & Hg').
    { intros m. rewrite Hg. f_equal. lia. }
    exists g'. split.
    + rewrite Hrun. rewrite <- app_assoc. do 3 f_equal.
      unfold shown_crop. rewrite !Hg.
      by replace (2 * b + 0) with (2 * b) by lia.
    + intros m. rewrite Hg'. f_equal. lia.
Qed.

(** X15: the cell that crops one pair n times hands [show_images] first the
    n feature crops and then the n label crops, in the order they were
    drawn; the k-th feature crop and the k-th label crop are cut at one
    offset, all 2n pictures have the shape 200 x 300, and the generator has
    moved by 2n draws. *)
Theorem rand_crop_shown_rows (n : nat) (feature label : image Z) (g : rng) :
  200 ≤ shape0 feature → 300 ≤ shape1 feature → same_shape feature label →
  ∃ g',
    rand_crop_shown imresize n feature label g
    = Ok (((fun k => shown_crop feature (shape0 feature) (shape1 feature) g k)
             <$> seq 0 n)
          ++ ((fun k => shown_crop label (shape0 feature) (shape1 feature) g k)
                <$> seq 0 n),
          g')
    ∧ (∀ m, g' m = g (2 * n + m))
    ∧ ∀ k img, shape0 (shown_crop img (shape0 feature) (shape1 feature) g k)
               = 200
               ∧ shape1 (shown_crop img (shape0 feature) (shape1 feature) g k)
                 = 300.
Proof.
  intros HH HW [H0 H1].
  destruct (rand_crop_loop_spec feature label g n HH HW ltac:(lia) ltac:(lia)
              0 g []) as (g' & Hrun & Hg'); [done|].
  exists g'. split; [|split; [exact Hg'|]].
  - unfold rand_crop_shown. rewrite Hrun. simpl.
    match goal with |- context [flat_map _ ?ps] =>
      destruct (every_second_pairs ps) as [-> ->] end.
    by rewrite <- !list_fmap_compose.
  - intros k img. unfold shown_crop, crop_at; simpl. lia.
Qed.
End CropDemoProperties.

Lemma big_pair_shown :
  ∃ g',
    rand_crop_shown imresize_keep 5 big_feature big_label draws
    = Ok (((fun k => shown_crop big_feature 210 320 draws k) <$> seq 0 5)
          ++ ((fun k => shown_crop big_label 210 320 draws k) <$> seq 0 5),
          g')
    ∧ (∀ m, g' m = draws (2 * 5 + m))
    ∧ ∀ k img, shape0 (shown_crop img 210 320 draws k) = 200
               ∧ shape1 (shown_crop img 210 320 draws k) = 300.
Proof.
  apply (rand_crop_shown_rows imresize_keep 5 big_feature big_label draws);
    [simpl; lia|simpl; lia|by split].
Defined.
